(** * The page-rendering worker (apps/playwright-service/main.py)

    A shallow embedding of the [/html] endpoint of the Playwright service:
    the module-level configuration read from the environment, the request
    model, the browser engine as an oracle of call outcomes, and the
    handler [root] written in a state-and-exception monad over a world
    that records browsing contexts, the call log, a clock and the files
    on disk; then the startup and shutdown handlers and the two health
    probes over the module-level [browser] variable. *)

From Stdlib Require Import ZArith NArith Bool String Ascii DecimalString Lia.
From Stdlib.Strings Require Import Byte.
From stdpp Require Import gmap strings list.

Local Open Scope string_scope.
Local Open Scope Z_scope.
Local Open Scope list_scope.

(** ** Python values used by the handler *)

Module Py.

(** [str] truthiness: [None] and the empty string are falsy. *)
Definition truthy_str (o : option string) : bool :=
  match o with
  | Some s => negb (String.eqb s "")
  | None => false
  end.

(** [dict] truthiness: [None] and the empty dict are falsy. *)
Definition truthy_dict {A} (o : option (list A)) : bool :=
  match o with
  | Some (_ :: _) => true
  | _ => false
  end.

(** [str.upper] on one character: the letters a-z move to A-Z. *)
Definition upper_ascii (c : ascii) : ascii :=
  let n := N_of_ascii c in
  if ((97 <=? n) && (n <=? 122))%N then ascii_of_N (n - 32) else c.

Fixpoint upper (s : string) : string :=
  match s with
  | EmptyString => EmptyString
  | String c s' => String (upper_ascii c) (upper s')
  end.

(** [str(int)] *)
Definition str_of_int (z : Z) : string :=
  NilZero.string_of_int (Z.to_int z).

(** [environ.get(key, default)] *)
Definition environ_get (environ : gmap string string) (key : string)
    (default : option string) : option string :=
  match environ !! key with
  | Some v => Some v
  | None => default
  end.

End Py.

(** ** base64.b64encode *)

Module Base64.

Definition alphabet : string :=
  "ABCDEFGHIJKLMNOPQRSTUVWXYZabcdefghijklmnopqrstuvwxyz0123456789+/".

Definition sextet (n : N) : ascii :=
  match String.get (N.to_nat n) alphabet with
  | Some c => c
  | None => "="%char
  end.

(** Three input bytes at a time give four output characters; a last
    group of one or two bytes is padded with [=]. *)
Fixpoint encode (bs : list N) : string :=
  match bs with
  | [] => EmptyString
  | [a] =>
      let w := N.shiftl a 16 in
      String (sextet (N.shiftr w 18))
        (String (sextet (N.land (N.shiftr w 12) 63)) "==")
  | [a; b] =>
      let w := N.lor (N.shiftl a 16) (N.shiftl b 8) in
      String (sextet (N.shiftr w 18))
        (String (sextet (N.land (N.shiftr w 12) 63))
           (String (sextet (N.land (N.shiftr w 6) 63)) "="))
  | a :: b :: c :: rest =>
      let w := N.lor (N.lor (N.shiftl a 16) (N.shiftl b 8)) c in
      String (sextet (N.shiftr w 18))
        (String (sextet (N.land (N.shiftr w 12) 63))
           (String (sextet (N.land (N.shiftr w 6) 63))
              (String (sextet (N.land w 63)) (encode rest))))
  end.

(** [base64.b64encode(data).decode('utf-8')]: the output is ASCII, so
    decoding it as UTF-8 gives the same characters. *)
Definition b64encode (data : list byte) : string :=
  encode (map Byte.to_N data).

End Base64.

(** ** URL globs of the engine's request interception

    [context.route(glob, handler)] hands the glob to the browser engine,
    which compares it with the whole request URL.  The fragment used by
    the service is modelled: [**] between separators (any number of whole
    path segments), [*] (any run of characters other than [/]), literal
    characters and a brace group of literal alternatives.  Engine
    versions differ on a leading [**/] only for a string without a
    separator, which no request URL is. *)

Module Glob.

Inductive raw :=
| RStars (n : nat)
| RChar (c : ascii).

(** A run of stars is read as one symbol. *)
Fixpoint lex (g : list ascii) : list raw :=
  match g with
  | [] => []
  | c :: g' =>
      if Ascii.eqb c "*" then
        match lex g' with
        | RStars n :: r => RStars (S n) :: r
        | r => RStars 1 :: r
        end
      else RChar c :: lex g'
  end.

Inductive token :=
| Deep
| Star
| Lit (c : ascii)
| Group (alts : list (list ascii)).

Definition is_slash (c : ascii) : bool := Ascii.eqb c "/".

Definition sep_or_edge (r : option raw) : bool :=
  match r with
  | None => true
  | Some (RChar c) => is_slash c
  | Some (RStars _) => false
  end.

Definition unmodelled (c : ascii) : bool :=
  Ascii.eqb c "?" || Ascii.eqb c "[" || Ascii.eqb c "]" || Ascii.eqb c "\".

(** [prev] is the symbol before the current one; [grp] holds the
    alternatives read so far while inside braces.  A deep wildcard also
    consumes the separator that follows it. *)
Fixpoint tokens (prev : option raw) (grp : option (list (list ascii) * list ascii))
    (rs : list raw) : option (list token) :=
  match grp, rs with
  | None, [] => Some []
  | Some _, [] => None
  | Some (alts, cur), RChar c :: rs' =>
      if Ascii.eqb c "}" then
        cons (Group (alts ++ [cur])) <$> tokens (Some (RChar c)) None rs'
      else if Ascii.eqb c "," then
        tokens (Some (RChar c)) (Some (alts ++ [cur], [])) rs'
      else if unmodelled c || Ascii.eqb c "{" then None
      else tokens (Some (RChar c)) (Some (alts, cur ++ [c])) rs'
  | Some _, RStars _ :: _ => None
  | None, RChar c :: rs' =>
      if Ascii.eqb c "{" then tokens (Some (RChar c)) (Some ([], [])) rs'
      else if unmodelled c || Ascii.eqb c "}" then None
      else cons (Lit c) <$> tokens (Some (RChar c)) None rs'
  | None, RStars n :: rs' =>
      if (1 <? n)%nat && sep_or_edge prev && sep_or_edge (head rs') then
        match rs' with
        | RChar c :: rs'' => cons Deep <$> tokens (Some (RChar c)) None rs''
        | _ => cons Deep <$> tokens (Some (RStars n)) None rs'
        end
      else cons Star <$> tokens (Some (RStars n)) None rs'
  end.

Definition tokenize (glob : string) : option (list token) :=
  tokens None None (lex (list_ascii_of_string glob)).

Fixpoint strip_prefix (p s : list ascii) : option (list ascii) :=
  match p, s with
  | [], _ => Some s
  | a :: p', b :: s' => if Ascii.eqb a b then strip_prefix p' s' else None
  | _ :: _, [] => None
  end.

Definition at_end (s : list ascii) : bool :=
  match s with [] => true | _ => false end.

(** [*]: the continuation [k] is tried after every run of non-separators. *)
Fixpoint star (k : list ascii -> bool) (s : list ascii) : bool :=
  k s ||
  match s with
  | c :: s' => negb (is_slash c) && star k s'
  | [] => false
  end.

(** The positions just after a separator. *)
Fixpoint after_slash (k : list ascii -> bool) (s : list ascii) : bool :=
  match s with
  | [] => false
  | c :: s' => (is_slash c && k s') || after_slash k s'
  end.

(** [**/]: whole segments, each closed by a separator or by the end of
    the URL, so [k] is tried at the start, after each separator and at
    the end. *)
Definition deep (k : list ascii -> bool) (s : list ascii) : bool :=
  k s || after_slash k s || k [].

Fixpoint matches (ts : list token) : list ascii -> bool :=
  match ts with
  | [] => at_end
  | Deep :: ts' => deep (matches ts')
  | Star :: ts' => star (matches ts')
  | Lit c :: ts' =>
      fun s =>
        match s with
        | c' :: s' => Ascii.eqb c c' && matches ts' s'
        | [] => false
        end
  | Group alts :: ts' =>
      fun s =>
        existsb (fun a =>
                   match strip_prefix a s with
                   | Some s' => matches ts' s'
                   | None => false
                   end) alts
  end.

Definition glob_match (glob url : string) : bool :=
  match tokenize glob with
  | Some ts => matches ts (list_ascii_of_string url)
  | None => false
  end.

End Glob.

(** ** The world the handler runs in *)

Inductive exn :=
| PlaywrightError (msg : string)
| TimeoutError (msg : string)
| AttributeError (msg : string)
| FileNotFoundError (path : string)
| UnicodeEncodeError (msg : string).

(** The [proxy] argument of [new_context]: a dict whose three values
    are what the configuration holds. *)
Record Proxy := mkProxy {
  server : option string;
  username : option string;
  password : option string
}.

Inductive RouteAction := abort | continue_.

Record Route := mkRoute {
  route_glob : string;
  route_handler : string -> RouteAction
}.

Record Context := mkContext {
  ctx_proxy : option Proxy;
  ctx_routes : list Route;
  ctx_pages : nat;
  ctx_closed : bool
}.

Record Response := mkResponse { status : Z }.

Definition Headers := list (string * string).

(** The calls that reach the engine, the clock and the disk. *)
Inductive Call :=
| CNewContext (proxy : option Proxy)
| CRoute (glob : string)
| CNewPage
| CSetExtraHttpHeaders (h : Headers)
| CGoto (url wait_until : string) (timeout : Z)
| CWaitForTimeout (ms : Z)
| CContent
| CScreenshot (path : string) (full_page : bool)
| COpen (path : string)
| CClose.

Record World := mkWorld {
  contexts : list Context;
  calls : list (Z * Call);
  clock : Z;
  files : gmap string (list byte)
}.

(** What the browser engine and the operating system answer.  [None]
    in an [option exn] means the call returns normally.  [eng_goto] takes
    the URL and the timeout and answers with an exception or with the
    response, if the navigation has one; [eng_content] gives the
    serialized document as it is at a given time; [eng_screenshot] gives
    the bytes of the image file for a value of [full_page];
    [eng_gettempdir] is [tempfile.gettempdir()] and [eng_time] is
    [time.time()] as the format call prints it. *)
Record Engine := mkEngine {
  eng_new_context : option Proxy -> option exn;
  eng_route : string -> option exn;
  eng_new_page : option exn;
  eng_set_extra_http_headers : Headers -> option exn;
  eng_goto : string -> Z -> exn + option Response;
  eng_wait_for_timeout : Z -> option exn;
  eng_content : Z -> exn + string;
  eng_screenshot : bool -> exn + list byte;
  eng_close : option exn;
  eng_gettempdir : string;
  eng_time : string
}.

(** ** State and exceptions *)

Inductive Result (A : Type) :=
| Return (a : A)
| Raise (e : exn).
Arguments Return {A} a.
Arguments Raise {A} e.

Definition M (A : Type) : Type := World -> Result A * World.

#[global] Instance M_ret : MRet M := fun A a w => (Return a, w).

#[global] Instance M_bind : MBind M := fun A B f m w =>
  match m w with
  | (Return a, w') => f a w'
  | (Raise e, w') => (Raise e, w')
  end.

#[global] Instance M_throw : MThrow exn M := fun A e w => (Raise e, w).

Definition log (c : Call) : M unit := fun w =>
  (Return tt,
   mkWorld (contexts w) (calls w ++ [(clock w, c)]) (clock w) (files w)).

Definition outcome (o : option exn) : M unit :=
  match o with
  | Some e => mthrow e
  | None => mret tt
  end.

Definition outcome_of {A} (o : exn + A) : M A :=
  match o with
  | inl e => mthrow e
  | inr a => mret a
  end.

Definition set_contexts (f : list Context -> list Context) : M unit := fun w =>
  (Return tt, mkWorld (f (contexts w)) (calls w) (clock w) (files w)).

Definition push_context (c : Context) : M nat := fun w =>
  (Return (length (contexts w)),
   mkWorld (contexts w ++ [c]) (calls w) (clock w) (files w)).

Definition advance_clock (ms : Z) : M unit := fun w =>
  (Return tt, mkWorld (contexts w) (calls w) (clock w + ms) (files w)).

Definition read_clock : M Z := fun w => (Return (clock w), w).

Definition write_file (path : string) (data : list byte) : M unit := fun w =>
  (Return tt, mkWorld (contexts w) (calls w) (clock w) (<[path := data]> (files w))).

Definition read_file (path : string) : M (list byte) := fun w =>
  match files w !! path with
  | Some data => (Return data, w)
  | None => (Raise (FileNotFoundError path), w)
  end.

(** ** JSON payloads *)

Inductive json :=
| JNull
| JStr (s : string)
| JInt (z : Z).

Definition json_of_option (o : option string) : json :=
  match o with
  | Some s => JStr s
  | None => JNull
  end.

Definition JSONResponse := list (string * json).

Fixpoint dict_get (key : string) (d : JSONResponse) : option json :=
  match d with
  | [] => None
  | (k, v) :: d' => if String.eqb k key then Some v else dict_get key d'
  end.

(** [d[key] = v] on a dict that keeps insertion order. *)
Fixpoint dict_set (key : string) (v : json) (d : JSONResponse) : JSONResponse :=
  match d with
  | [] => [(key, v)]
  | (k, v') :: d' =>
      if String.eqb k key then (k, v) :: d' else (k, v') :: dict_set key v d'
  end.

(** *** Building the response

    [JSONResponse(content=...)] renders its content in the constructor:
    [json.dumps(content, ensure_ascii=False, ...).encode("utf-8")].  The
    strings of the model are the UTF-8 bytes of Python's strings; a lone
    surrogate, which a Python string can hold and UTF-8 cannot encode,
    is held as the three bytes ED A0..BF 80..BF that stand for it. *)

Fixpoint has_surrogate (s : string) : bool :=
  match s with
  | EmptyString => false
  | String a s' =>
      match s' with
      | String b _ =>
          ((N_of_ascii a =? 237) && (160 <=? N_of_ascii b) && (N_of_ascii b <=? 191))%N
          || has_surrogate s'
      | EmptyString => false
      end
  end.

Definition json_has_surrogate (v : json) : bool :=
  match v with
  | JStr s => has_surrogate s
  | _ => false
  end.

(** The content encodes: no key and no string value holds a surrogate. *)
Definition renders (content : JSONResponse) : bool :=
  forallb (fun kv => negb (has_surrogate kv.1 || json_has_surrogate kv.2)) content.

Definition UNENCODABLE : exn :=
  UnicodeEncodeError "'utf-8' codec can't encode character: surrogates not allowed".

Definition new_JSONResponse (content : JSONResponse) : M JSONResponse :=
  if renders content then mret content else mthrow UNENCODABLE.

(** ** get_error *)

Module GetError.

(** Modelled from the spec: the table of [get_error], whose module is not
    among the sources, with the entries the specification lists. *)
Definition error_messages : list (Z * string) :=
  [ (401, "Unauthorized"); (403, "Forbidden"); (404, "Not Found");
    (408, "Request Timeout"); (429, "Too Many Requests");
    (500, "Internal Server Error"); (502, "Bad Gateway");
    (503, "Service Unavailable"); (504, "Gateway Timeout") ].

Fixpoint lookup_message (code : Z) (t : list (Z * string)) : option string :=
  match t with
  | [] => None
  | (c, m) :: t' => if Z.eqb c code then Some m else lookup_message code t'
  end.

(** Modelled from the spec: the codes [get_error] leaves unset, 2xx and
    3xx. *)
Definition success_range (code : Z) : bool :=
  ((200 <=? code) && (code <? 400))%Z.

(** Modelled from the spec: the module [get_error] that main.py imports
    is not among the sources.  The classification is a total function
    from the status code: unset for every 2xx/3xx code, the table's
    string for a listed code, and otherwise the generic
    "Unknown Error (status <code>)". *)
Definition get_error (status_code : Z) : option string :=
  if success_range status_code then None
  else
    match lookup_message status_code error_messages with
    | Some m => Some m
    | None =>
        Some ("Unknown Error (status " +:+ Py.str_of_int status_code +:+ ")")
    end.

End GetError.

(** ** The service *)

Record UrlModel := mkUrlModel {
  url : string;
  wait_after_load : Z;
  timeout : Z;
  headers : option Headers;
  screenshot : bool;
  screenshot_full_page : bool
}.

Definition MEDIA_GLOB : string :=
  "**/*.{png,jpg,jpeg,gif,svg,mp3,mp4,avi,flac,ogg,wav,webm}".


Section Service.

Variable environ : gmap string string.
Variable eng : Engine.

Definition PROXY_SERVER : option string := Py.environ_get environ "PROXY_SERVER" None.
Definition PROXY_USERNAME : option string := Py.environ_get environ "PROXY_USERNAME" None.
Definition PROXY_PASSWORD : option string := Py.environ_get environ "PROXY_PASSWORD" None.
Definition BLOCK_MEDIA : bool :=
  match Py.environ_get environ "BLOCK_MEDIA" (Some "False") with
  | Some v => String.eqb (Py.upper v) "TRUE"
  | None => false
  end.

(** *** Engine calls *)

Definition browser_new_context (proxy : option Proxy) : M nat :=
  log (CNewContext proxy);;
  outcome (eng_new_context eng proxy);;
  push_context (mkContext proxy [] 0 false).

Definition context_route (context : nat) (glob : string)
    (handler : string -> RouteAction) : M unit :=
  log (CRoute glob);;
  outcome (eng_route eng glob);;
  set_contexts
    (alter (fun c => mkContext (ctx_proxy c) (ctx_routes c ++ [mkRoute glob handler])
                               (ctx_pages c) (ctx_closed c)) context).

Definition context_new_page (context : nat) : M nat :=
  log CNewPage;;
  outcome (eng_new_page eng);;
  set_contexts
    (alter (fun c => mkContext (ctx_proxy c) (ctx_routes c)
                               (S (ctx_pages c)) (ctx_closed c)) context);;
  mret context.

Definition page_set_extra_http_headers (page : nat) (h : Headers) : M unit :=
  log (CSetExtraHttpHeaders h);;
  outcome (eng_set_extra_http_headers eng h).

Definition page_goto (page : nat) (u wait_until : string) (t : Z)
    : M (option Response) :=
  log (CGoto u wait_until t);;
  outcome_of (eng_goto eng u t).

Definition page_wait_for_timeout (page : nat) (ms : Z) : M unit :=
  log (CWaitForTimeout ms);;
  outcome (eng_wait_for_timeout eng ms);;
  advance_clock ms.

Definition page_content (page : nat) : M string :=
  log CContent;;
  now ← read_clock;
  outcome_of (eng_content eng now).

Definition page_screenshot (page : nat) (path : string) (full_page : bool)
    : M (list byte) :=
  log (CScreenshot path full_page);;
  image ← outcome_of (eng_screenshot eng full_page);
  write_file path image;;
  mret image.

(** [with open(path, "rb") as f: f.read()]: the handle is released when
    the block is left; the file itself is not touched. *)
Definition open_rb_read (path : string) : M (list byte) :=
  log (COpen path);;
  read_file path.

Definition context_close (context : nat) : M unit :=
  log CClose;;
  outcome (eng_close eng);;
  set_contexts
    (alter (fun c => mkContext (ctx_proxy c) (ctx_routes c) (ctx_pages c) true)
           context).

(** [response.status] *)
Definition response_status (response : option Response) : M Z :=
  match response with
  | Some r => mret (status r)
  | None => mthrow (AttributeError "'NoneType' object has no attribute 'status'")
  end.

(** *** POST /html *)

Definition root (body : UrlModel) : M JSONResponse :=
  context ←
    (if Py.truthy_str PROXY_SERVER && Py.truthy_str PROXY_USERNAME
        && Py.truthy_str PROXY_PASSWORD
     then browser_new_context
            (Some (mkProxy PROXY_SERVER PROXY_USERNAME PROXY_PASSWORD))
     else browser_new_context None);
  (if BLOCK_MEDIA
   then context_route context MEDIA_GLOB (fun request => abort)
   else mret tt);;
  page ← context_new_page context;
  (if Py.truthy_dict (headers body)
   then page_set_extra_http_headers page (default [] (headers body))
   else mret tt);;
  response ← page_goto page (url body) "load" (timeout body);
  page_status_code ← response_status response;
  let page_error := GetError.get_error page_status_code in
  (if (0 <? wait_after_load body)%Z
   then page_wait_for_timeout page (wait_after_load body)
   else mret tt);;
  page_content ← page_content page;
  shot ←
    (if screenshot body || screenshot_full_page body then
       let tmp_dir := eng_gettempdir eng in
       let tmp_file := tmp_dir +:+ "/screenshot_" +:+ eng_time eng +:+ ".png" in
       page_screenshot page tmp_file (screenshot_full_page body);;
       image ← open_rb_read tmp_file;
       mret (Some (Base64.b64encode image))
     else mret None);
  context_close context;;
  let json_compatible_item_data :=
    [ ("content", JStr page_content);
      ("pageStatusCode", JInt page_status_code);
      ("pageError", json_of_option page_error) ] in
  new_JSONResponse
    (if Py.truthy_str shot
     then dict_set "screenshot" (json_of_option shot) json_compatible_item_data
     else json_compatible_item_data).

End Service.

(** ** Observations on worlds and call logs *)

Definition opened (w : World) : nat := length (contexts w).

Definition closed (w : World) : nat :=
  length (List.filter ctx_closed (contexts w)).

(** The calls a run added to the log of the world it started in. *)
Definition new_calls (w w' : World) : list (Z * Call) :=
  drop (length (calls w)) (calls w').

(** The place of each call in the handler's sequence. *)
Definition phase (c : Call) : nat :=
  match c with
  | CNewContext _ => 0
  | CRoute _ => 1
  | CNewPage => 2
  | CSetExtraHttpHeaders _ => 3
  | CGoto _ _ _ => 4
  | CWaitForTimeout _ => 5
  | CContent => 6
  | CScreenshot _ _ => 7
  | COpen _ => 8
  | CClose => 9
  end.

Definition is_goto (c : Z * Call) : bool :=
  match c.2 with CGoto _ _ _ => true | _ => false end.

Definition after_goto (c : Z * Call) : bool := (4 <? phase c.2)%nat.


(** The time at which the first call satisfying [p] was made. *)
Fixpoint time_of (p : Call -> bool) (cs : list (Z * Call)) : option Z :=
  match cs with
  | [] => None
  | (t, c) :: cs' => if p c then Some t else time_of p cs'
  end.

Definition is_content (c : Call) : bool :=
  match c with CContent => true | _ => false end.

Definition is_load (c : Call) : bool :=
  match c with CGoto _ _ _ => true | _ => false end.

(** ** Configuration, as the specification words it *)












(** The request with another post-load wait. *)
Definition with_wait (body : UrlModel) (ms : Z) : UrlModel :=
  mkUrlModel (url body) ms (timeout body) (headers body) (screenshot body)
             (screenshot_full_page body).

(** The engine with another answer to the navigation. *)
Definition with_goto (eng : Engine) (g : string -> Z -> exn + option Response) : Engine :=
  mkEngine (eng_new_context eng) (eng_route eng) (eng_new_page eng)
           (eng_set_extra_http_headers eng) g (eng_wait_for_timeout eng)
           (eng_content eng) (eng_screenshot eng) (eng_close eng)
           (eng_gettempdir eng) (eng_time eng).

(** The name of the screenshot file of a request. *)
Definition tmp_file_of (eng : Engine) : string :=
  eng_gettempdir eng +:+ "/screenshot_" +:+ eng_time eng +:+ ".png".

(** ** Sample inputs *)

Definition world0 : World := mkWorld [] [] 0 ∅.

(** An engine on which every call succeeds: the page answers with
    [code] and a screenshot is the PNG signature. *)
Definition eng_ok (code : Z) : Engine :=
  mkEngine (fun _ => None) (fun _ => None) None (fun _ => None)
           (fun _ _ => inr (Some (mkResponse code)))
           (fun _ => None) (fun _ => inr "<html>ok</html>")
           (fun _ => inr [x89; x50; x4e; x47; x0d; x0a; x1a; x0a])
           None "/tmp" "1700000000.5".

Definition eng_nav_timeout : Engine :=
  with_goto (eng_ok 200)
    (fun _ _ => inl (TimeoutError "Timeout 100ms exceeded.")).

Definition eng_no_response : Engine :=
  with_goto (eng_ok 200) (fun _ _ => inr None).

(** U+D800 on its own, in the bytes that stand for it. *)
Definition lone_surrogate : string :=
  String (ascii_of_N 237) (String (ascii_of_N 160) (String (ascii_of_N 128) EmptyString)).

(** An engine on which every call succeeds and whose page holds a lone
    surrogate. *)
Definition eng_surrogate : Engine :=
  mkEngine (fun _ => None) (fun _ => None) None (fun _ => None)
           (fun _ _ => inr (Some (mkResponse 200)))
           (fun _ => None) (fun _ => inr ("<p>" +:+ lone_surrogate +:+ "</p>"))
           (fun _ => inr [x89; x50; x4e; x47; x0d; x0a; x1a; x0a])
           None "/tmp" "1700000000.5".

Definition body0 : UrlModel :=
  mkUrlModel "https://example.com" 0 5000 None false false.

Definition body_quick : UrlModel :=
  mkUrlModel "https://example.com" 0 100 None false false.

Definition body_shot : UrlModel :=
  mkUrlModel "https://example.com" 0 5000 None true false.


(** ** The shape of a run, for stating what [root] does *)

(** The proxy that the configuration selects. *)
Definition proxy_choice (environ : gmap string string) : option Proxy :=
  if Py.truthy_str (PROXY_SERVER environ) && Py.truthy_str (PROXY_USERNAME environ)
     && Py.truthy_str (PROXY_PASSWORD environ)
  then Some (mkProxy (PROXY_SERVER environ) (PROXY_USERNAME environ)
                     (PROXY_PASSWORD environ))
  else None.


(** The clock when the content is read, [t0] being the clock at the load. *)
Definition settle_time (body : UrlModel) (t0 : Z) : Z :=
  if 0 <? wait_after_load body then t0 + wait_after_load body else t0.

Definition media_routes (environ : gmap string string) : list Route :=
  if BLOCK_MEDIA environ then [mkRoute MEDIA_GLOB (fun _ => abort)] else [].

Definition payload (code : Z) (page : string) (shot : option string) : JSONResponse :=
  [ ("content", JStr page); ("pageStatusCode", JInt code);
    ("pageError", json_of_option (GetError.get_error code)) ]
  ++ (if Py.truthy_str shot then [("screenshot", json_of_option shot)] else []).

(** The calls of a request that runs to its end. *)
Definition calls_of_success (environ : gmap string string) (eng : Engine)
    (body : UrlModel) (t0 : Z) : list (Z * Call) :=
  let t1 := settle_time body t0 in
  [(t0, CNewContext (proxy_choice environ))]
  ++ (if BLOCK_MEDIA environ then [(t0, CRoute MEDIA_GLOB)] else [])
  ++ [(t0, CNewPage)]
  ++ (if Py.truthy_dict (headers body)
      then [(t0, CSetExtraHttpHeaders (default [] (headers body)))] else [])
  ++ [(t0, CGoto (url body) "load" (timeout body))]
  ++ (if 0 <? wait_after_load body
      then [(t0, CWaitForTimeout (wait_after_load body))] else [])
  ++ [(t1, CContent)]
  ++ (if screenshot body || screenshot_full_page body
      then [(t1, CScreenshot (tmp_file_of eng) (screenshot_full_page body));
            (t1, COpen (tmp_file_of eng))]
      else [])
  ++ [(t1, CClose)].

Fixpoint increasing (l : list nat) : bool :=
  match l with
  | a :: (b :: _) as l' => (a <? b)%nat && increasing l'
  | _ => true
  end.

Definition phases (cs : list (Z * Call)) : list nat := map (fun c => phase c.2) cs.

(** What [response.status] raises when the navigation gave no response. *)
Definition NO_RESPONSE : exn :=
  AttributeError "'NoneType' object has no attribute 'status'".



(** The steps before the navigation do not raise. *)
Definition reaches_navigation (environ : gmap string string) (eng : Engine)
    (body : UrlModel) : Prop :=
  eng_new_context eng (proxy_choice environ) = None /\
  (BLOCK_MEDIA environ = true -> eng_route eng MEDIA_GLOB = None) /\
  eng_new_page eng = None /\
  (Py.truthy_dict (headers body) = true ->
   eng_set_extra_http_headers eng (default [] (headers body)) = None).

Definition is_wait (c : Call) : bool :=
  match c with CWaitForTimeout _ => true | _ => false end.

Definition is_set_headers (c : Call) : bool :=
  match c with CSetExtraHttpHeaders _ => true | _ => false end.

(** ** The process: startup, shutdown and probes *)

Inductive Browser := ChromiumBrowser.

(** The module-level [browser] variable, together with what the
    process has running: the Playwright driver and the launched browser. *)
Record App := mkApp {
  browser : option Browser;
  driver_started : bool;
  browser_running : bool
}.

(** What the host answers to [async_playwright().start()], to
    [playwright.chromium.launch()] and to [browser.close()]. *)
Record Host := mkHost {
  host_start : option exn;
  host_launch : option exn;
  host_close : option exn
}.

(** The process as the module is loaded: [browser = None]. *)
Definition app0 : App := mkApp None false false.

Definition startup_event (h : Host) (app : App) : Result unit * App :=
  match host_start h with
  | Some e => (Raise e, app)
  | None =>
      match host_launch h with
      | Some e => (Raise e, mkApp (browser app) true (browser_running app))
      | None => (Return tt, mkApp (Some ChromiumBrowser) true true)
      end
  end.

Definition NO_BROWSER_CLOSE : exn :=
  AttributeError "'NoneType' object has no attribute 'close'".

Definition shutdown_event (h : Host) (app : App) : Result unit * App :=
  match browser app with
  | None => (Raise NO_BROWSER_CLOSE, app)
  | Some _ =>
      match host_close h with
      | Some e => (Raise e, app)
      | None => (Return tt, mkApp (browser app) (driver_started app) false)
      end
  end.

(** A [JSONResponse(content=..., status_code=...)]. *)
Definition liveness_probe : JSONResponse * Z :=
  ([("status", JStr "ok")], 200).

Definition readiness_probe (app : App) : JSONResponse * Z :=
  match browser app with
  | Some _ => ([("status", JStr "ok")], 200)
  | None => ([("status", JStr "Service Unavailable")], 503)
  end.

Definition NO_BROWSER : exn :=
  AttributeError "'NoneType' object has no attribute 'new_context'".

(** [root] as the process runs it: [browser.new_context] is looked up on
    the module-level variable before anything else happens. *)
Definition root_in (app : App) (environ : gmap string string) (eng : Engine)
    (body : UrlModel) : M JSONResponse :=
  match browser app with
  | Some _ => root environ eng body
  | None => mthrow NO_BROWSER
  end.

(** ** Requests *)

(** [UrlModel(url=..., ...)] with the fields a request may leave out. *)
Definition UrlModel_of (url : string) (wait_after_load timeout : option Z)
    (headers : option Headers) (screenshot screenshot_full_page : option bool)
    : UrlModel :=
  mkUrlModel url (default 0 wait_after_load) (default 15000 timeout) headers
             (default false screenshot) (default false screenshot_full_page).

Definition with_headers (body : UrlModel) (h : option Headers) : UrlModel :=
  mkUrlModel (url body) (wait_after_load body) (timeout body) h (screenshot body)
             (screenshot_full_page body).

Definition with_screenshot (body : UrlModel) (shot full : bool) : UrlModel :=
  mkUrlModel (url body) (wait_after_load body) (timeout body) (headers body)
             shot full.

(** The world after the requests have been handled one after another,
    each with the engine answers it meets. *)
Fixpoint serve (environ : gmap string string) (requests : list (Engine * UrlModel))
    (w : World) : World :=
  match requests with
  | [] => w
  | (eng, body) :: rest => serve environ rest (root environ eng body w).2
  end.

(** ** Reading base64 back *)

Fixpoint index_of (c : ascii) (s : string) : option nat :=
  match s with
  | EmptyString => None
  | String c' s' => if Ascii.eqb c c' then Some 0%nat else S <$> index_of c s'
  end.

Definition unsextet (c : ascii) : option N :=
  N.of_nat <$> index_of c Base64.alphabet.

Definition word_of (s1 s2 s3 s4 : N) : N :=
  N.lor (N.lor (N.lor (N.shiftl s1 18) (N.shiftl s2 12)) (N.shiftl s3 6)) s4.

(** The inverse of [Base64.encode] on its own output. *)
Fixpoint decode_text (s : string) : option (list N) :=
  match s with
  | EmptyString => Some []
  | String c1 (String c2 (String c3 (String c4 rest))) =>
      s1 ← unsextet c1;
      s2 ← unsextet c2;
      if Ascii.eqb c4 "=" then
        match rest with
        | EmptyString =>
            if Ascii.eqb c3 "=" then
              Some [N.shiftr (word_of s1 s2 0 0) 16]
            else
              s3 ← unsextet c3;
              let w := word_of s1 s2 s3 0 in
              Some [N.shiftr w 16; N.land (N.shiftr w 8) 255]
        | _ => None
        end
      else
        s3 ← unsextet c3;
        s4 ← unsextet c4;
        let w := word_of s1 s2 s3 s4 in
        bs ← decode_text rest;
        Some (N.shiftr w 16 :: N.land (N.shiftr w 8) 255 :: N.land w 255 :: bs)
  | _ => None
  end.

Definition b64decode (s : string) : option (list byte) :=
  bs ← decode_text s;
  mapM Byte.of_N bs.

(** ** What the engine answers to each call *)

(** The exception with which a logged call ends, if it does: the
    engine's answer to the call, and for the navigation also the
    attribute error of a missing response.  Reading the screenshot back
    is no engine call. *)
Definition raised_at (eng : Engine) (t : Z) (c : Call) : option exn :=
  match c with
  | CNewContext px => eng_new_context eng px
  | CRoute g => eng_route eng g
  | CNewPage => eng_new_page eng
  | CSetExtraHttpHeaders h => eng_set_extra_http_headers eng h
  | CGoto u _ tmo =>
      match eng_goto eng u tmo with
      | inl e => Some e
      | inr None => Some NO_RESPONSE
      | inr (Some _) => None
      end
  | CWaitForTimeout ms => eng_wait_for_timeout eng ms
  | CContent =>
      match eng_content eng t with
      | inl e => Some e
      | inr _ => None
      end
  | CScreenshot _ full_page =>
      match eng_screenshot eng full_page with
      | inl e => Some e
      | inr _ => None
      end
  | COpen _ => None
  | CClose => eng_close eng
  end.

Definition succeeded (eng : Engine) (c : Z * Call) : Prop :=
  raised_at eng c.1 c.2 = None.

Definition is_close (c : Z * Call) : bool :=
  match c.2 with CClose => true | _ => false end.

Definition is_route (c : Z * Call) : bool :=
  match c.2 with CRoute _ => true | _ => false end.

(** The contexts that were opened and not closed. *)
Definition leaked (w : World) : nat :=
  length (List.filter (fun c => negb (ctx_closed c)) (contexts w)).

(** * Properties *)

(** ** Running the handler symbolically *)

Lemma alter_last {A} (f : A -> A) (l : list A) (x : A) :
  alter f (length l) (l ++ [x]) = l ++ [f x].
Proof.
  induction l as [|a l IH]; simpl; [reflexivity|]. f_equal. exact IH.
Qed.

Ltac unfold_service :=
  unfold root, browser_new_context, context_route, context_new_page,
    page_set_extra_http_headers, page_goto, page_wait_for_timeout,
    page_content, page_screenshot, open_rb_read, context_close,
    response_status, new_JSONResponse, log, outcome, outcome_of, set_contexts,
    push_context, advance_clock, read_clock, write_file, read_file,
    mbind, M_bind, mret, M_ret, mthrow, M_throw in *.

Ltac split_run :=
  repeat (cbn [fst snd contexts calls clock files] in *;
          match goal with
          | |- context [match ?x with _ => _ end] =>
              lazymatch x with
              | context [match _ with _ => _ end] => fail
              | _ => destruct x eqn:?
              end
          end).

Ltac run_root H :=
  revert H; unfold_service; split_run; rewrite ?alter_last;
  intros H; inversion H; subst; clear H.

(** A request that returns went through every step. *)
Lemma root_returns environ eng body w r w' :
  root environ eng body w = (Return r, w') ->
  exists code page,
    eng_goto eng (url body) (timeout body) = inr (Some (mkResponse code)) /\
    eng_content eng (settle_time body (clock w)) = inr page /\
    contexts w' =
      contexts w ++ [mkContext (proxy_choice environ) (media_routes environ) 1 true] /\
    calls w' = calls w ++ calls_of_success environ eng body (clock w) /\
    clock w' = settle_time body (clock w) /\
    if screenshot body || screenshot_full_page body then
      exists image,
        eng_screenshot eng (screenshot_full_page body) = inr image /\
        files w' = <[tmp_file_of eng := image]> (files w) /\
        r = payload code page (Some (Base64.b64encode image))
    else files w' = files w /\ r = payload code page None.
Proof.
  intros Hrun.
  unfold calls_of_success, settle_time, media_routes, proxy_choice, tmp_file_of.
  run_root Hrun.
  all: cbn [contexts calls clock files].
  all: repeat match goal with
       | r : Response |- _ => destruct r
       | H : <[?k := ?v]> ?m !! ?k = Some _ |- _ =>
           rewrite lookup_insert_eq in H; injection H as <-
       end.
  all: rewrite <- ?app_assoc.
  all: do 2 eexists; do 5 (split; [reflexivity || eassumption|]).
  all: try (eexists; do 2 (split; [reflexivity || eassumption|])).
  all: try (split; [reflexivity|]); unfold payload;
     match goal with H : Py.truthy_str _ = _ |- _ =>
       first [ discriminate H | rewrite H ] end; reflexivity.
Qed.

(** A request that raises stopped somewhere along the same sequence, or
    went through all of it and failed to build its response. *)
Lemma root_raises environ eng body w e w' :
  root environ eng body w = (Raise e, w') ->
  exists rest,
    calls w' = calls w ++ (clock w, CNewContext (proxy_choice environ)) :: rest /\
    increasing (0%nat :: phases rest) = true /\
    ((contexts w' = contexts w /\ rest = [] /\
      eng_new_context eng (proxy_choice environ) = Some e) \/
     (eng_new_context eng (proxy_choice environ) = None /\
      (existsb is_close rest = true -> eng_close eng = Some e) /\
      exists c, contexts w' = contexts w ++ [c] /\ ctx_closed c = false) \/
     (eng_new_context eng (proxy_choice environ) = None /\
      eng_close eng = None /\ e = UNENCODABLE /\
      (clock w, CNewContext (proxy_choice environ)) :: rest =
        calls_of_success environ eng body (clock w) /\
      exists c, contexts w' = contexts w ++ [c] /\ ctx_closed c = true)) /\
    (files w' = files w \/
     exists image, files w' = <[tmp_file_of eng := image]> (files w)) /\
    (clock w' = clock w \/
     ((0 <? wait_after_load body) = true /\
      clock w' = clock w + wait_after_load body)) /\
    (existsb (fun c => is_wait c.2) rest = true ->
     (0 <? wait_after_load body) = true) /\
    (length (List.filter is_goto rest) <= 1)%nat /\
    (reaches_navigation environ eng body -> existsb is_goto rest = true) /\
    (forall e0, eng_goto eng (url body) (timeout body) = inl e0 ->
       forallb (fun c => negb (after_goto c)) rest = true /\
       (existsb is_goto rest = true -> e = e0)) /\
    (eng_goto eng (url body) (timeout body) = inr None ->
       forallb (fun c => negb (after_goto c)) rest = true /\
       (existsb is_goto rest = true -> e = NO_RESPONSE)) /\
    (existsb is_goto rest = true ->
     (exists later,
        rest = (if BLOCK_MEDIA environ then [(clock w, CRoute MEDIA_GLOB)] else [])
               ++ (clock w, CNewPage) :: later /\
        existsb is_route later = false) /\
     exists c,
       contexts w' = contexts w ++ [c] /\
       ctx_proxy c = proxy_choice environ /\
       ctx_routes c = media_routes environ /\ ctx_pages c = 1%nat).
Proof.
  intros Hrun.
  unfold reaches_navigation, calls_of_success, settle_time, media_routes,
    proxy_choice, tmp_file_of.
  run_root Hrun.
  all: cbn [contexts calls clock files].
  all: rewrite <- ?app_assoc.
  all: eexists; split; [cbn [app]; reflexivity|].
  all: split; [reflexivity|].
  all: split;
    [first [ left; repeat split; (reflexivity || assumption)
           | right; left; split; [reflexivity|];
             split; [cbn; intros Hx; first [discriminate Hx | reflexivity]|];
             eexists; split; reflexivity
           | right; right; do 4 (split; [reflexivity|]); eexists; split; reflexivity ]|].
  all: split; [first [left; reflexivity | right; eexists; reflexivity]|].
  all: split; [first [left; reflexivity | right; split; reflexivity]|].
  all: split; [cbn; intros Hw; first [reflexivity | discriminate Hw]|].
  all: split; [cbn; lia|].
  all: split;
    [intros (H1 & H2 & H3 & H4);
     first [ discriminate H1 | discriminate H3
           | specialize (H2 eq_refl); discriminate H2
           | specialize (H4 eq_refl); discriminate H4
           | reflexivity ]|].
  all: split; [intros ? [=]; subst; try (split; [reflexivity|])|].
  all: try (cbn; solve [discriminate | reflexivity]).
  all: split; [intros [=]; subst; try (split; [reflexivity|])|].
  all: try (cbn; solve [discriminate | reflexivity]).
  all: cbn; intros Hg;
    first [ discriminate Hg
          | split; [eexists; split; reflexivity | eexists; repeat split; reflexivity] ].
Qed.

(** ** Every run, call by call *)

Ltac hyp_case :=
  match goal with
  | |- match ?x with _ => _ end = _ =>
      match goal with H : x = _ |- _ => rewrite H; reflexivity end
  end.

Ltac call_ok :=
  unfold succeeded; cbn [fst snd raised_at];
  first [reflexivity | assumption | hyp_case].

Ltac calls_ok :=
  repeat first [apply List.Forall_nil | apply List.Forall_cons; [call_ok|]].

(** The calls of a run are an initial segment of the calls of the
    complete run.  A run that raises either stopped at a call that
    failed, or made every call, the close included, and could not build
    its response. *)
Lemma root_trace environ eng body w res w' :
  root environ eng body w = (res, w') ->
  exists new,
    calls w' = calls w ++ new /\
    new `prefix_of` calls_of_success environ eng body (clock w) /\
    match res with
    | Return _ =>
        new = calls_of_success environ eng body (clock w) /\
        Forall (succeeded eng) new
    | Raise e =>
        new <> [] /\
        ((raised_at eng (List.last new (0, CClose)).1 (List.last new (0, CClose)).2 = Some e /\
          Forall (succeeded eng) (removelast new) /\
          (existsb is_close new = true ->
           new = calls_of_success environ eng body (clock w))) \/
         (e = UNENCODABLE /\
          new = calls_of_success environ eng body (clock w) /\
          Forall (succeeded eng) new))
    end.
Proof.
  intros Hrun.
  unfold calls_of_success, settle_time, proxy_choice, tmp_file_of.
  run_root Hrun.
  all: try match goal with
       | H : <[?k := ?v]> ?m !! ?k = None |- _ =>
           rewrite lookup_insert_eq in H; discriminate H
       end.
  all: cbn [contexts calls clock files].
  all: rewrite <- ?app_assoc.
  all: eexists; split; [cbn [app]; reflexivity|].
  all: split; [eexists; cbn [app]; reflexivity|].
  all: try (split; [reflexivity|]); try (split; [discriminate|]).
  all: first
    [ left; cbn [List.last removelast fst snd raised_at];
      split; [first [assumption | hyp_case]|];
      split; [solve [calls_ok] | cbn; intros Hc; first [discriminate Hc | reflexivity]]
    | right; split; [reflexivity|]; split; [reflexivity|]; solve [calls_ok]
    | solve [calls_ok] ].
Qed.

(** ** The media glob *)










(** ** Configuration strings and base64 *)





Lemma encode_nonempty bs : bs <> [] -> Base64.encode bs <> "".
Proof.
  destruct bs as [|a [|b [|c rest]]]; [congruence | | |]; intros _; discriminate.
Qed.

Lemma b64encode_truthy image :
  image <> [] -> Py.truthy_str (Some (Base64.b64encode image)) = true.
Proof.
  intros H. unfold Py.truthy_str, Base64.b64encode.
  apply negb_true_iff, String.eqb_neq, encode_nonempty.
  destruct image; [congruence | discriminate].
Qed.

Lemma b64encode_empty : Py.truthy_str (Some (Base64.b64encode [])) = false.
Proof. reflexivity. Qed.

(** ** Call logs *)

Lemma new_calls_app w w' new :
  calls w' = calls w ++ new -> new_calls w w' = new.
Proof. intros H. unfold new_calls. rewrite H. apply drop_app_length. Qed.





(** The same, read off the two worlds. *)
Lemma root_new_calls environ eng body w :
  exists new,
    new_calls w (root environ eng body w).2 = new /\
    new `prefix_of` calls_of_success environ eng body (clock w) /\
    match (root environ eng body w).1 with
    | Return _ =>
        new = calls_of_success environ eng body (clock w) /\
        Forall (succeeded eng) new
    | Raise e =>
        ((exists earlier last,
            new = earlier ++ [last] /\
            raised_at eng last.1 last.2 = Some e /\
            Forall (succeeded eng) earlier) /\
         (existsb is_close new = true ->
          new = calls_of_success environ eng body (clock w))) \/
        (e = UNENCODABLE /\
         new = calls_of_success environ eng body (clock w) /\
         Forall (succeeded eng) new)
    end.
Proof.
  destruct (root environ eng body w) as [res w'] eqn:Hrun.
  destruct (root_trace _ _ _ _ _ _ Hrun) as (new & Hc & Hpre & Hres).
  exists new. cbn [fst snd]. split; [exact (new_calls_app _ _ _ Hc)|].
  split; [exact Hpre|].
  destruct res as [r|e]; [exact Hres|].
  destruct Hres as (Hne & [(Hlast & Hearlier & Hclose)|Hrender]); [left | right; exact Hrender].
  split; [|exact Hclose].
  exists (removelast new), (List.last new (0, CClose)).
  split; [now apply app_removelast_last|]. split; assumption.
Qed.

Lemma complete_run_ends_with_close environ eng body t0 :
  exists before,
    calls_of_success environ eng body t0 = before ++ [(settle_time body t0, CClose)] /\
    (settle_time body t0, CContent) ∈ before.
Proof.
  unfold calls_of_success.
  destruct (BLOCK_MEDIA environ), (Py.truthy_dict (headers body)),
    (0 <? wait_after_load body), (screenshot body || screenshot_full_page body);
    cbn [app];
    match goal with |- exists before, ?l = _ /\ _ => exists (removelast l) end;
    (split; [reflexivity | apply list_elem_of_In; cbn; tauto]).
Qed.

Lemma complete_run_has_close environ eng body t0 :
  existsb is_close (calls_of_success environ eng body t0) = true /\
  (Forall (succeeded eng) (calls_of_success environ eng body t0) ->
   eng_close eng = None).
Proof.
  destruct (complete_run_ends_with_close environ eng body t0) as (before & -> & _).
  split.
  - rewrite existsb_app. cbn. apply orb_true_r.
  - rewrite Forall_app, Forall_singleton. intros [_ H]. exact H.
Qed.

(** ** The proxy choice *)










(** ** Contexts *)

Lemma closed_snoc cs c :
  length (List.filter ctx_closed (cs ++ [c])) =
  (length (List.filter ctx_closed cs) + (if ctx_closed c then 1 else 0))%nat.
Proof.
  rewrite List.filter_app, length_app. cbn. destruct (ctx_closed c); reflexivity.
Qed.

(** C1, as the handler has it.  A request opens one context as soon as
    the context creation succeeds.  That context is closed exactly when
    the run reaches [context.close()] and the close succeeds, and the
    close is reached only by a run that made every call of the complete
    run: a run that raises in header application, navigation, the status
    read, the wait, content extraction or screenshot capture calls no
    close, so the context it opened stays open.  A run that returns has
    closed its context; a run that raises has closed it only when every
    call had succeeded and building the response failed. *)
Theorem context_closed_iff_close_succeeds environ eng body w :
  let run := root environ eng body w in
  let new := new_calls w run.2 in
  (closed run.2 = S (closed w) <->
   existsb is_close new = true /\ eng_close eng = None) /\
  (closed run.2 = closed w <->
   ~ (existsb is_close new = true /\ eng_close eng = None)) /\
  (existsb is_close new = true ->
   new = calls_of_success environ eng body (clock w)) /\
  match run.1 with
  | Return _ => opened run.2 = S (opened w) /\ closed run.2 = S (closed w)
  | Raise e =>
      (eng_new_context eng (proxy_choice environ) = None ->
       opened run.2 = S (opened w)) /\
      (eng_new_context eng (proxy_choice environ) <> None ->
       opened run.2 = opened w) /\
      (closed run.2 = closed w \/ e = UNENCODABLE)
  end.
Proof.
  cbv zeta.
  destruct (root_new_calls environ eng body w) as (new & Hnew & _ & H).
  destruct (complete_run_has_close environ eng body (clock w)) as [Hhas Hsucc].
  rewrite Hnew.
  destruct (root environ eng body w) as [[r|e] w'] eqn:Hrun; cbn [fst snd] in *.
  - destruct (root_returns _ _ _ _ _ _ Hrun) as (code & page & _ & _ & Hctx & _).
    destruct H as [-> Hall]. specialize (Hsucc Hall).
    assert (Hcl : closed w' = S (closed w)).
    { unfold closed. rewrite Hctx, closed_snoc. cbn. lia. }
    assert (Hop : opened w' = S (opened w)).
    { unfold opened. rewrite Hctx, length_app. cbn. lia. }
    repeat split; intros; first [tauto | lia].
  - destruct (root_raises _ _ _ _ _ _ Hrun) as (rest & Hc & _ & Hctx & _).
    rewrite (new_calls_app _ _ _ Hc) in Hnew. subst new.
    assert (Hfull : existsb is_close ((clock w, CNewContext (proxy_choice environ)) :: rest) = true ->
                    (clock w, CNewContext (proxy_choice environ)) :: rest =
                    calls_of_success environ eng body (clock w)).
    { destruct H as [[_ Hfull]|(_ & Hfull & _)]; [exact Hfull | intros _; exact Hfull]. }
    destruct Hctx as [(Hctx & -> & Hnc)|[(Hnc & Hclose & c & Hctx & Hopen)
                                        |(Hnc & Hclose & -> & Heq & c & Hctx & Hshut)]].
    + assert (Hcl : closed w' = closed w) by (unfold closed; now rewrite Hctx).
      assert (Hop : opened w' = opened w) by (unfold opened; now rewrite Hctx).
      assert (Hno : ~ (existsb is_close [(clock w, CNewContext (proxy_choice environ))] = true /\
                       eng_close eng = None)).
      { intros [Hf _]. discriminate Hf. }
      repeat split; intros; first [tauto | lia | congruence].
    + assert (Hcl : closed w' = closed w).
      { unfold closed. rewrite Hctx, closed_snoc, Hopen. lia. }
      assert (Hop : opened w' = S (opened w)).
      { unfold opened. rewrite Hctx, length_app. cbn. lia. }
      assert (Hno : ~ (existsb is_close ((clock w, CNewContext (proxy_choice environ)) :: rest) = true /\
                       eng_close eng = None)).
      { cbn [existsb is_close snd orb]. intros [Hx Hy]. specialize (Hclose Hx). congruence. }
      repeat split; intros; first [tauto | lia | congruence].
    + assert (Hcl : closed w' = S (closed w)).
      { unfold closed. rewrite Hctx, closed_snoc, Hshut. lia. }
      assert (Hop : opened w' = S (opened w)).
      { unfold opened. rewrite Hctx, length_app. cbn. lia. }
      rewrite Heq in *.
      repeat split; intros; first [tauto | lia | congruence].
Qed.

(** C1, as stated, fails: when the navigation times out the context that
    was opened is never closed. *)
Lemma context_leaks_on_navigation_timeout :
  let run := root ∅ eng_nav_timeout body_quick world0 in
  run.1 = Raise (TimeoutError "Timeout 100ms exceeded.") /\
  opened run.2 = 1%nat /\ closed run.2 = 0%nat.
Proof. vm_compute. repeat split. Qed.

(** ** The payload *)

Lemma dict_get_payload_error code page shot :
  dict_get "pageError" (payload code page shot) =
  Some (json_of_option (GetError.get_error code)).
Proof. reflexivity. Qed.

Lemma dict_get_payload_status code page shot :
  dict_get "pageStatusCode" (payload code page shot) = Some (JInt code).
Proof. reflexivity. Qed.

Lemma dict_get_payload_screenshot code page shot :
  dict_get "screenshot" (payload code page shot) =
  if Py.truthy_str shot then Some (json_of_option shot) else None.
Proof. unfold payload. destruct (Py.truthy_str shot); reflexivity. Qed.

Lemma root_returns_payload environ eng body w r w' :
  root environ eng body w = (Return r, w') ->
  exists code page shot,
    eng_goto eng (url body) (timeout body) = inr (Some (mkResponse code)) /\
    r = payload code page shot.
Proof.
  intros Hrun.
  destruct (root_returns _ _ _ _ _ _ Hrun) as (code & page & Hgoto & _ & _ & _ & _ & Hshot).
  exists code, page.
  destruct (screenshot body || screenshot_full_page body).
  - destruct Hshot as (image & _ & _ & ->). eauto.
  - destruct Hshot as (_ & ->). eauto.
Qed.

Lemma success_range_iff code :
  GetError.success_range code = true <-> 200 <= code < 400.
Proof.
  unfold GetError.success_range. rewrite andb_true_iff, Z.leb_le, Z.ltb_lt.
  reflexivity.
Qed.

Lemma get_error_None_iff code :
  GetError.get_error code = None <-> 200 <= code < 400.
Proof.
  rewrite <- success_range_iff. unfold GetError.get_error.
  destruct (GetError.success_range code); [split; reflexivity|].
  destruct (GetError.lookup_message code GetError.error_messages);
    split; discriminate.
Qed.

Lemma get_error_listed code m :
  In (code, m) GetError.error_messages -> GetError.get_error code = Some m.
Proof.
  cbn. intros H.
  repeat (destruct H as [[= <- <-]|H]; [reflexivity|]). destruct H.
Qed.

Lemma lookup_message_None code t :
  (forall m, ~ In (code, m) t) -> GetError.lookup_message code t = None.
Proof.
  induction t as [|[c m] t IH]; intros H; cbn; [reflexivity|].
  destruct (Z.eqb_spec c code) as [->|Hne].
  - exfalso. apply (H m). left. reflexivity.
  - apply IH. intros m' Hm'. apply (H m'). right. exact Hm'.
Qed.

Lemma get_error_unlisted code :
  ~ 200 <= code < 400 ->
  (forall m, ~ In (code, m) GetError.error_messages) ->
  GetError.get_error code =
    Some ("Unknown Error (status " +:+ Py.str_of_int code +:+ ")").
Proof.
  intros Hr Hn. unfold GetError.get_error.
  rewrite (lookup_message_None _ _ Hn).
  destruct (GetError.success_range code) eqn:Hs; [|reflexivity].
  exfalso. apply Hr. now apply success_range_iff.
Qed.

(** C2.  In every result the handler returns, pageStatusCode is the
    status of the navigation's response and pageError is the
    classification of that status: unset (None, sent as null) exactly for
    the codes 200..399, the table's string for a listed code, and
    "Unknown Error (status <code>)" for any other code. *)
Theorem page_error_iff_status_not_success environ eng body w r w' :
  root environ eng body w = (Return r, w') ->
  exists code,
    eng_goto eng (url body) (timeout body) = inr (Some (mkResponse code)) /\
    dict_get "pageStatusCode" r = Some (JInt code) /\
    dict_get "pageError" r = Some (json_of_option (GetError.get_error code)) /\
    (GetError.get_error code = None <-> 200 <= code < 400) /\
    (forall m, In (code, m) GetError.error_messages ->
       GetError.get_error code = Some m) /\
    (~ 200 <= code < 400 ->
     (forall m, ~ In (code, m) GetError.error_messages) ->
     GetError.get_error code =
       Some ("Unknown Error (status " +:+ Py.str_of_int code +:+ ")")).
Proof.
  intros Hrun.
  destruct (root_returns_payload _ _ _ _ _ _ Hrun) as (code & page & shot & Hgoto & ->).
  exists code. split; [exact Hgoto|].
  split; [apply dict_get_payload_status|].
  split; [apply dict_get_payload_error|].
  split; [apply get_error_None_iff|].
  split; [apply get_error_listed | apply get_error_unlisted].
Qed.

Lemma page_error_iff_status_not_success_witness :
  exists code,
    eng_goto (eng_ok 404) (url body0) (timeout body0) = inr (Some (mkResponse code)) /\
    dict_get "pageStatusCode" (payload 404 "<html>ok</html>" None) = Some (JInt code) /\
    dict_get "pageError" (payload 404 "<html>ok</html>" None) =
      Some (json_of_option (GetError.get_error code)) /\
    (GetError.get_error code = None <-> 200 <= code < 400) /\
    (forall m, In (code, m) GetError.error_messages ->
       GetError.get_error code = Some m) /\
    (~ 200 <= code < 400 ->
     (forall m, ~ In (code, m) GetError.error_messages) ->
     GetError.get_error code =
       Some ("Unknown Error (status " +:+ Py.str_of_int code +:+ ")")).
Proof.
  apply (page_error_iff_status_not_success ∅ (eng_ok 404) body0 world0
           (payload 404 "<html>ok</html>" None)
           (root ∅ (eng_ok 404) body0 world0).2).
  vm_compute. reflexivity.
Defined.

(** ** Order of the steps *)

Lemma calls_of_success_times environ eng body t0 :
  let new := calls_of_success environ eng body t0 in
  time_of is_load new = Some t0 /\
  time_of is_content new = Some (settle_time body t0) /\
  existsb (fun c => is_set_headers c.2) new = Py.truthy_dict (headers body) /\
  existsb (fun c => is_wait c.2) new = (0 <? wait_after_load body) /\
  ((0 <? wait_after_load body) = true ->
   In (t0, CWaitForTimeout (wait_after_load body)) new).
Proof.
  unfold calls_of_success.
  destruct (BLOCK_MEDIA environ), (Py.truthy_dict (headers body)),
    (0 <? wait_after_load body), (screenshot body || screenshot_full_page body);
    cbn; repeat split; intros; try discriminate; tauto.
Qed.


(** ** Screenshots *)

(** C5.  With an engine whose screenshots are never empty files, the
    result has a screenshot entry exactly when the request set screenshot
    or screenshotFullPage; the entry is the base64 text of the image the
    engine captured with full_page = screenshotFullPage; and it does not
    depend on what the navigation answered. *)
Theorem screenshot_iff_requested environ eng body w r w' :
  (forall full image, eng_screenshot eng full = inr image -> image <> []) ->
  root environ eng body w = (Return r, w') ->
  (is_Some (dict_get "screenshot" r) <->
   screenshot body = true \/ screenshot_full_page body = true) /\
  (forall v, dict_get "screenshot" r = Some v ->
     exists image,
       eng_screenshot eng (screenshot_full_page body) = inr image /\
       v = JStr (Base64.b64encode image)) /\
  (forall g r2 w2,
     root environ (with_goto eng g) body w = (Return r2, w2) ->
     dict_get "screenshot" r2 = dict_get "screenshot" r).
Proof.
  intros Hpng Hrun.
  destruct (root_returns _ _ _ _ _ _ Hrun) as (code & page & _ & _ & _ & _ & _ & Hshot).
  assert (Hother : forall g r2 w2,
            root environ (with_goto eng g) body w = (Return r2, w2) ->
            if screenshot body || screenshot_full_page body
            then exists image,
                eng_screenshot eng (screenshot_full_page body) = inr image /\
                dict_get "screenshot" r2 = Some (JStr (Base64.b64encode image))
            else dict_get "screenshot" r2 = None).
  { intros g r2 w2 H2.
    destruct (root_returns _ _ _ _ _ _ H2) as (code2 & page2 & _ & _ & _ & _ & _ & Hshot2).
    destruct (screenshot body || screenshot_full_page body).
    - destruct Hshot2 as (image & Himg & _ & ->). cbn in Himg.
      exists image. split; [exact Himg|].
      rewrite dict_get_payload_screenshot, b64encode_truthy; [reflexivity|].
      eapply Hpng. exact Himg.
    - destruct Hshot2 as (_ & ->). reflexivity. }
  destruct (screenshot body || screenshot_full_page body) eqn:Hreq.
  - destruct Hshot as (image & Himg & _ & ->).
    rewrite dict_get_payload_screenshot, b64encode_truthy by (eapply Hpng; exact Himg).
    apply orb_true_iff in Hreq. repeat split.
    + intros _. exact Hreq.
    + eauto.
    + intros v [= <-]. eauto.
    + intros g r2 w2 H2. destruct (Hother g r2 w2 H2) as (image2 & Himg2 & ->).
      rewrite Himg in Himg2. injection Himg2 as <-. reflexivity.
  - destruct Hshot as (_ & ->). apply orb_false_iff in Hreq as [H1 H2].
    repeat split.
    + intros [v Hv]. discriminate.
    + intros [H|H]; congruence.
    + intros v Hv. discriminate.
    + intros g r2 w2 Hr2. exact (Hother g r2 w2 Hr2).
Qed.

Lemma screenshot_iff_requested_witness :
  (is_Some (dict_get "screenshot"
              (payload 200 "<html>ok</html>"
                 (Some (Base64.b64encode [x89; x50; x4e; x47; x0d; x0a; x1a; x0a])))) <->
   screenshot body_shot = true \/ screenshot_full_page body_shot = true) /\
  (forall v,
     dict_get "screenshot"
       (payload 200 "<html>ok</html>"
          (Some (Base64.b64encode [x89; x50; x4e; x47; x0d; x0a; x1a; x0a]))) = Some v ->
     exists image,
       eng_screenshot (eng_ok 200) (screenshot_full_page body_shot) = inr image /\
       v = JStr (Base64.b64encode image)) /\
  (forall g r2 w2,
     root ∅ (with_goto (eng_ok 200) g) body_shot world0 = (Return r2, w2) ->
     dict_get "screenshot" r2 =
     dict_get "screenshot"
       (payload 200 "<html>ok</html>"
          (Some (Base64.b64encode [x89; x50; x4e; x47; x0d; x0a; x1a; x0a])))).
Proof.
  apply (screenshot_iff_requested ∅ (eng_ok 200) body_shot world0 _
           (root ∅ (eng_ok 200) body_shot world0).2).
  - intros full image [= <-]. discriminate.
  - vm_compute. reflexivity.
Defined.

(** C6, as the handler has it.  No request removes a file: every file
    present before the request is present after it, and every path other
    than the screenshot file of the request keeps its content.  A request
    that captures a screenshot and returns leaves that file on disk,
    holding the captured image. *)
Theorem screenshot_file_is_kept environ eng body w :
  let run := root environ eng body w in
  (forall p, is_Some (files w !! p) -> is_Some (files run.2 !! p)) /\
  (forall p, p <> tmp_file_of eng -> files run.2 !! p = files w !! p) /\
  match run.1 with
  | Return _ =>
      screenshot body || screenshot_full_page body = true ->
      exists image,
        eng_screenshot eng (screenshot_full_page body) = inr image /\
        files run.2 !! tmp_file_of eng = Some image
  | Raise _ => True
  end.
Proof.
  cbv zeta.
  assert (Hins : forall (fs : gmap string (list byte)) image,
             (forall p, is_Some (fs !! p) ->
                        is_Some (<[tmp_file_of eng := image]> fs !! p)) /\
             (forall p, p <> tmp_file_of eng ->
                        <[tmp_file_of eng := image]> fs !! p = fs !! p)).
  { intros fs image. split; intros p Hp.
    - rewrite lookup_insert_is_Some.
      destruct (decide (tmp_file_of eng = p)); [left; assumption | right; split; assumption].
    - apply lookup_insert_ne. congruence. }
  destruct (root environ eng body w) as [[r|e] w'] eqn:Hrun; cbn [fst snd].
  - destruct (root_returns _ _ _ _ _ _ Hrun) as (code & page & _ & _ & _ & _ & _ & Hshot).
    destruct (screenshot body || screenshot_full_page body).
    + destruct Hshot as (image & Himg & -> & _).
      destruct (Hins (files w) image) as [H1 H2].
      repeat split; [exact H1 | exact H2 |].
      intros _. exists image. split; [exact Himg | apply lookup_insert_eq].
    + destruct Hshot as (-> & _). repeat split; auto. discriminate.
  - destruct (root_raises _ _ _ _ _ _ Hrun) as (rest & _ & _ & _ & Hfiles & _).
    destruct Hfiles as [->|(image & ->)].
    + repeat split; auto.
    + destruct (Hins (files w) image) as [H1 H2]. repeat split; assumption.
Qed.

(** C6, as stated, fails: after a request with a screenshot has
    returned, the screenshot file is still on disk. *)
Lemma screenshot_file_left_after_request :
  let run := root ∅ (eng_ok 200) body_shot world0 in
  (exists r, run.1 = Return r) /\
  files run.2 !! "/tmp/screenshot_1700000000.5.png" =
    Some [x89; x50; x4e; x47; x0d; x0a; x1a; x0a].
Proof. vm_compute. split; [eexists; reflexivity | reflexivity]. Qed.

(** ** Media blocking *)







(** ** Failed navigations *)

(** C8.  When the navigation raises, the handler returns no result: the
    run ends in an exception, the navigation was called at most once (no
    retry), no call of a later step (wait, content, screenshot, close)
    was made, and once the navigation has been called (as it is whenever
    the steps before it do not raise) the exception that reaches the
    caller is the navigation's own. *)
Theorem navigation_failure_propagates environ eng body w e :
  eng_goto eng (url body) (timeout body) = inl e ->
  let run := root environ eng body w in
  let new := new_calls w run.2 in
  (exists e', run.1 = Raise e') /\
  (length (List.filter is_goto new) <= 1)%nat /\
  forallb (fun c => negb (after_goto c)) new = true /\
  (existsb is_goto new = true -> run.1 = Raise e) /\
  (reaches_navigation environ eng body -> run.1 = Raise e).
Proof.
  intros Hgoto. cbv zeta.
  destruct (root environ eng body w) as [[r|e'] w'] eqn:Hrun; cbn [fst snd].
  - destruct (root_returns _ _ _ _ _ _ Hrun) as (code & page & Hok & _).
    rewrite Hgoto in Hok. discriminate.
  - destruct (root_raises _ _ _ _ _ _ Hrun)
      as (rest & Hc & _ & _ & _ & _ & _ & Hone & Hreach & Hfail & _).
    rewrite (new_calls_app _ _ _ Hc).
    destruct (Hfail e Hgoto) as [Hbefore Hsame].
    split; [eauto|]. split; [exact Hone|]. split; [exact Hbefore|].
    split; [cbn; intros Hg | intros Hg; apply Hreach in Hg]; now rewrite (Hsame Hg).
Qed.

Lemma navigation_failure_propagates_witness :
  (exists e', (root ∅ eng_nav_timeout body_quick world0).1 = Raise e') /\
  (length (List.filter is_goto
             (new_calls world0 (root ∅ eng_nav_timeout body_quick world0).2)) <= 1)%nat /\
  forallb (fun c => negb (after_goto c))
          (new_calls world0 (root ∅ eng_nav_timeout body_quick world0).2) = true /\
  (existsb is_goto (new_calls world0 (root ∅ eng_nav_timeout body_quick world0).2) = true ->
   (root ∅ eng_nav_timeout body_quick world0).1 =
     Raise (TimeoutError "Timeout 100ms exceeded.")) /\
  (reaches_navigation ∅ eng_nav_timeout body_quick ->
   (root ∅ eng_nav_timeout body_quick world0).1 =
     Raise (TimeoutError "Timeout 100ms exceeded.")).
Proof.
  apply (navigation_failure_propagates ∅ eng_nav_timeout body_quick world0
           (TimeoutError "Timeout 100ms exceeded.")).
  reflexivity.
Defined.

(** ** Waits *)

Lemma root_with_wait_nonpositive environ eng body :
  wait_after_load body <= 0 ->
  root environ eng body = root environ eng (with_wait body 0).
Proof.
  intros Hneg. unfold root, with_wait.
  cbn [url wait_after_load timeout headers screenshot screenshot_full_page].
  assert ((0 <? wait_after_load body) = false) as -> by now apply Z.ltb_ge.
  reflexivity.
Qed.

(** C9.  A request with a negative wait_after_load runs exactly as the
    same request with wait_after_load = 0: same outcome, same world; no
    wait is made and the clock has not moved when the handler ends. *)
Theorem negative_wait_is_no_wait environ eng body w :
  wait_after_load body < 0 ->
  root environ eng body w = root environ eng (with_wait body 0) w /\
  clock (root environ eng body w).2 = clock w /\
  existsb (fun c => is_wait c.2)
          (new_calls w (root environ eng body w).2) = false.
Proof.
  intros Hneg.
  assert (Hb : (0 <? wait_after_load body) = false) by (apply Z.ltb_ge; lia).
  split; [rewrite (root_with_wait_nonpositive environ eng body); [reflexivity | lia]|].
  destruct (root environ eng body w) as [[r|e] w'] eqn:Hrun; cbn [fst snd].
  - destruct (root_returns _ _ _ _ _ _ Hrun) as (code & page & _ & _ & _ & Hc & Hclock & _).
    rewrite (new_calls_app _ _ _ Hc), Hclock.
    destruct (calls_of_success_times environ eng body (clock w)) as (_ & _ & _ & Hwait & _).
    rewrite Hwait. unfold settle_time. rewrite Hb. split; reflexivity.
  - destruct (root_raises _ _ _ _ _ _ Hrun)
      as (rest & Hc & _ & _ & _ & Hclock & Hwait & _).
    rewrite (new_calls_app _ _ _ Hc). split.
    + destruct Hclock as [->|[Hpos _]]; [reflexivity | congruence].
    + cbn. destruct (existsb (fun c : Z * Call => is_wait c.2) rest); [|reflexivity].
      rewrite Hwait in Hb; [discriminate | reflexivity].
Qed.

Lemma negative_wait_is_no_wait_witness :
  root ∅ (eng_ok 200) (with_wait body0 (-250)) world0 =
    root ∅ (eng_ok 200) (with_wait (with_wait body0 (-250)) 0) world0 /\
  clock (root ∅ (eng_ok 200) (with_wait body0 (-250)) world0).2 = clock world0 /\
  existsb (fun c => is_wait c.2)
          (new_calls world0 (root ∅ (eng_ok 200) (with_wait body0 (-250)) world0).2) = false.
Proof.
  apply (negative_wait_is_no_wait ∅ (eng_ok 200) (with_wait body0 (-250)) world0).
  reflexivity.
Defined.

(** ** Navigations without a response *)

(** C10.  There is a request (one whose navigation returns no response)
    on which the handler raises the attribute error of [response.status]
    instead of returning a result.  In general, when the navigation
    returns no response the handler returns no result, and raises that
    error once the navigation has been called (as it is whenever the
    steps before it do not raise); and whenever the handler returns a
    result the navigation had returned a response. *)
Theorem missing_response_raises environ eng body w :
  let run := root environ eng body w in
  (root ∅ eng_no_response body0 world0).1 = Raise NO_RESPONSE /\
  (eng_goto eng (url body) (timeout body) = inr None ->
   (exists e, run.1 = Raise e) /\
   (existsb is_goto (new_calls w run.2) = true -> run.1 = Raise NO_RESPONSE) /\
   (reaches_navigation environ eng body -> run.1 = Raise NO_RESPONSE)) /\
  (forall r, run.1 = Return r ->
   exists response, eng_goto eng (url body) (timeout body) = inr (Some response)).
Proof.
  cbv zeta. split; [reflexivity|].
  destruct (root environ eng body w) as [[r|e] w'] eqn:Hrun; cbn [fst snd].
  - destruct (root_returns _ _ _ _ _ _ Hrun) as (code & page & Hok & _).
    split; [intros Hnone; rewrite Hnone in Hok; discriminate|].
    intros _ _. eauto.
  - split; [|intros r [=]].
    intros Hnone.
    destruct (root_raises _ _ _ _ _ _ Hrun)
      as (rest & Hc & _ & _ & _ & _ & _ & _ & Hreach & _ & Hmiss & _).
    rewrite (new_calls_app _ _ _ Hc).
    destruct (Hmiss Hnone) as [_ Hsame].
    split; [eauto|].
    split; [cbn; intros Hg | intros Hg; apply Hreach in Hg]; now rewrite (Hsame Hg).
Qed.

(** ** Worked examples *)

Example b64encode_vectors :
  Base64.b64encode [x4d; x61; x6e] = "TWFu" /\
  Base64.b64encode [x4d; x61] = "TWE=" /\
  Base64.b64encode [x4d] = "TQ==" /\
  Base64.b64encode [] = "".
Proof. repeat split. Qed.

Example get_error_table :
  GetError.get_error 401 = Some "Unauthorized" /\
  GetError.get_error 403 = Some "Forbidden" /\
  GetError.get_error 404 = Some "Not Found" /\
  GetError.get_error 408 = Some "Request Timeout" /\
  GetError.get_error 429 = Some "Too Many Requests" /\
  GetError.get_error 500 = Some "Internal Server Error" /\
  GetError.get_error 502 = Some "Bad Gateway" /\
  GetError.get_error 503 = Some "Service Unavailable" /\
  GetError.get_error 504 = Some "Gateway Timeout" /\
  GetError.get_error 200 = None /\
  GetError.get_error 304 = None /\
  GetError.get_error 418 = Some "Unknown Error (status 418)".
Proof. repeat split. Qed.

Example media_glob_samples :
  Glob.glob_match MEDIA_GLOB "https://example.com/img/logo.png" = true /\
  Glob.glob_match MEDIA_GLOB "https://example.com/a.webm" = true /\
  Glob.glob_match MEDIA_GLOB "https://example.com/index.html" = false /\
  Glob.glob_match MEDIA_GLOB "https://example.com/app.js" = false /\
  Glob.glob_match MEDIA_GLOB "https://example.com/logo.png?v=2" = false.
Proof. repeat split. Qed.

Example render_ok_page :
  (root ∅ (eng_ok 200) body0 world0).1 =
  Return [ ("content", JStr "<html>ok</html>"); ("pageStatusCode", JInt 200);
           ("pageError", JNull) ].
Proof. reflexivity. Qed.

Example render_not_found_page :
  (root ∅ (eng_ok 404) body0 world0).1 =
  Return [ ("content", JStr "<html>ok</html>"); ("pageStatusCode", JInt 404);
           ("pageError", JStr "Not Found") ].
Proof. reflexivity. Qed.

Example render_with_screenshot :
  (root ∅ (eng_ok 200) body_shot world0).1 =
  Return [ ("content", JStr "<html>ok</html>"); ("pageStatusCode", JInt 200);
           ("pageError", JNull); ("screenshot", JStr "iVBORw0KGgo=") ].
Proof. reflexivity. Qed.

(** A page with a lone surrogate: every call succeeds, the context is
    closed, and the response cannot be built. *)
Example render_lone_surrogate :
  let run := root ∅ eng_surrogate body0 world0 in
  run.1 = Raise UNENCODABLE /\
  opened run.2 = 1%nat /\ closed run.2 = 1%nat /\
  new_calls world0 run.2 = calls_of_success ∅ eng_surrogate body0 0.
Proof. vm_compute. repeat split. Qed.

(** * Further properties *)

(** ** The process *)

(** X1.  At load the readiness probe answers 503.  A startup that
    returns makes it answer 200; a startup that raises, in the driver or
    in the launch, leaves the answer as it was.  The liveness probe does
    not look at the process at all. *)
Theorem readiness_follows_startup h app :
  let run := startup_event h app in
  readiness_probe app0 = ([("status", JStr "Service Unavailable")], 503) /\
  (run.1 = Return tt <-> host_start h = None /\ host_launch h = None) /\
  (run.1 = Return tt ->
   readiness_probe run.2 = ([("status", JStr "ok")], 200)) /\
  (run.1 <> Return tt -> readiness_probe run.2 = readiness_probe app) /\
  liveness_probe = ([("status", JStr "ok")], 200).
Proof.
  cbv zeta. unfold startup_event.
  destruct (host_start h) as [e|]; [|destruct (host_launch h) as [e|]]; cbn;
    repeat split; try reflexivity; try discriminate; try congruence;
    intros [? ?]; discriminate.
Qed.

(** X2.  After a startup that raised, the [browser] variable is still
    unset: a request raises the attribute error of [browser.new_context]
    before any engine call and leaves the world as it was, and the
    shutdown handler raises the attribute error of [browser.close]. *)
Theorem failed_startup_leaves_no_browser h h' environ eng body w :
  (startup_event h app0).1 <> Return tt ->
  let app := (startup_event h app0).2 in
  readiness_probe app = ([("status", JStr "Service Unavailable")], 503) /\
  root_in app environ eng body w = (Raise NO_BROWSER, w) /\
  shutdown_event h' app = (Raise NO_BROWSER_CLOSE, app).
Proof.
  unfold startup_event.
  destruct (host_start h) as [e|]; [|destruct (host_launch h) as [e|]]; cbn;
    intros H; try (exfalso; apply H; reflexivity); repeat split.
Qed.

Lemma failed_startup_leaves_no_browser_witness :
  let h := mkHost None (Some (PlaywrightError "Executable doesn't exist")) None in
  readiness_probe (startup_event h app0).2 =
    ([("status", JStr "Service Unavailable")], 503) /\
  root_in (startup_event h app0).2 ∅ (eng_ok 200) body0 world0 =
    (Raise NO_BROWSER, world0) /\
  shutdown_event h (startup_event h app0).2 =
    (Raise NO_BROWSER_CLOSE, (startup_event h app0).2).
Proof.
  apply (failed_startup_leaves_no_browser
           (mkHost None (Some (PlaywrightError "Executable doesn't exist")) None)).
  discriminate.
Defined.

(** X3.  The shutdown handler closes the browser and nothing else: the
    [browser] variable keeps its value and the driver is not stopped.  So
    after a shutdown the readiness probe answers what it answered
    before, 200 if the browser had been launched, and requests are still
    handed to the closed browser. *)
Theorem shutdown_keeps_the_handle h app :
  let run := shutdown_event h app in
  browser run.2 = browser app /\
  driver_started run.2 = driver_started app /\
  readiness_probe run.2 = readiness_probe app /\
  (forall environ eng body,
     root_in run.2 environ eng body = root_in app environ eng body) /\
  (run.1 = Return tt ->
   browser_running run.2 = false /\
   readiness_probe run.2 = ([("status", JStr "ok")], 200)).
Proof.
  cbv zeta. unfold shutdown_event, readiness_probe, root_in.
  destruct (browser app) as [b|] eqn:Hb; [destruct (host_close h) as [e|]|]; cbn;
    rewrite ?Hb; repeat split; try reflexivity; discriminate.
Qed.

(** ** Where a run stops *)


(** X5.  The calls of any run are an initial segment of the calls of the
    complete run of the same request, with the same arguments and times:
    nothing is skipped, repeated or done out of turn, and a run that
    returns made all of them. *)
Theorem root_calls_prefix_of_complete_run environ eng body w :
  let run := root environ eng body w in
  new_calls w run.2 `prefix_of` calls_of_success environ eng body (clock w) /\
  (forall r, run.1 = Return r ->
   new_calls w run.2 = calls_of_success environ eng body (clock w)).
Proof.
  cbv zeta. destruct (root_new_calls environ eng body w) as (new & -> & Hpre & H).
  split; [exact Hpre|]. intros r Hr. rewrite Hr in H. tauto.
Qed.

(** ** A failing close *)

(** X6.  When [context.close()] raises, the handler returns no result.
    If the run got as far as the close, the exception that reaches the
    caller is the close's: the content had been read (and the screenshot
    taken) and is discarded, and the context stays open. *)
Theorem close_failure_discards_result environ eng body w e :
  eng_close eng = Some e ->
  let run := root environ eng body w in
  (exists e', run.1 = Raise e') /\
  (existsb is_close (new_calls w run.2) = true ->
   run.1 = Raise e /\
   opened run.2 = S (opened w) /\ closed run.2 = closed w /\
   exists page, eng_content eng (settle_time body (clock w)) = inr page).
Proof.
  intros Hclose. cbv zeta.
  destruct (root_new_calls environ eng body w) as (new & Hnew & _ & H).
  rewrite Hnew.
  destruct (complete_run_ends_with_close environ eng body (clock w))
    as (before & Hfull & Hcontent).
  destruct (root environ eng body w) as [[r|e'] w'] eqn:Hrun; cbn [fst snd] in *.
  - exfalso. destruct H as [-> Hall]. rewrite Hfull in Hall.
    rewrite Forall_app, Forall_singleton in Hall. destruct Hall as [_ Hlast].
    unfold succeeded in Hlast. cbn in Hlast. congruence.
  - split; [eauto|]. intros Hc.
    destruct H as [[(earlier & last & Hsplit & Hlast & Hearlier) Hcomplete]
                  |(_ & -> & Hall)].
    2:{ exfalso. rewrite Hfull in Hall.
        rewrite Forall_app, Forall_singleton in Hall. destruct Hall as [_ Hlast].
        unfold succeeded in Hlast. cbn in Hlast. congruence. }
    specialize (Hcomplete Hc).
    rewrite Hcomplete, Hfull in Hsplit.
    apply app_inj_tail in Hsplit as [<- <-].
    cbn in Hlast. assert (e' = e) as -> by congruence.
    split; [reflexivity|].
    rewrite Forall_forall in Hearlier. specialize (Hearlier _ Hcontent).
    unfold succeeded in Hearlier. cbn in Hearlier.
    destruct (eng_content eng (settle_time body (clock w))) as [ex|page] eqn:Hpage;
      [discriminate|].
    destruct (root_raises _ _ _ _ _ _ Hrun) as (rest & Hcalls & _ & Hctx & _).
    unfold opened, closed.
    destruct Hctx as [(_ & -> & _)|[(_ & _ & c & -> & Hcl)|(_ & Hshut & _)]].
    + exfalso. rewrite (new_calls_app _ _ _ Hcalls) in Hnew. subst new.
      cbn in Hc. discriminate.
    + rewrite closed_snoc, Hcl, length_app. cbn. repeat split; try lia. eauto.
    + congruence.
Qed.

Lemma close_failure_discards_result_witness :
  let eng :=
    mkEngine (fun _ => None) (fun _ => None) None (fun _ => None)
             (fun _ _ => inr (Some (mkResponse 200)))
             (fun _ => None) (fun _ => inr "<html>ok</html>")
             (fun _ => inr [x89; x50]) (Some (PlaywrightError "Target closed"))
             "/tmp" "1700000000.5" in
  let run := root ∅ eng body0 world0 in
  (exists e', run.1 = Raise e') /\
  (existsb is_close (new_calls world0 run.2) = true ->
   run.1 = Raise (PlaywrightError "Target closed") /\
   opened run.2 = S (opened world0) /\ closed run.2 = closed world0 /\
   exists page, eng_content eng (settle_time body0 (clock world0)) = inr page).
Proof.
  apply (close_failure_discards_result ∅
           (mkEngine (fun _ => None) (fun _ => None) None (fun _ => None)
             (fun _ _ => inr (Some (mkResponse 200)))
             (fun _ => None) (fun _ => inr "<html>ok</html>")
             (fun _ => inr [x89; x50]) (Some (PlaywrightError "Target closed"))
             "/tmp" "1700000000.5") body0 world0).
  reflexivity.
Defined.

(** ** Requests one after another *)

Lemma root_contexts_grow environ eng body w :
  exists tail,
    contexts (root environ eng body w).2 = contexts w ++ tail /\
    (length tail <= 1)%nat /\
    match (root environ eng body w).1 with
    | Return _ => exists c, tail = [c] /\ ctx_closed c = true
    | Raise e =>
        Forall (fun c => ctx_closed c = false) tail \/
        (e = UNENCODABLE /\ exists c, tail = [c] /\ ctx_closed c = true)
    end.
Proof.
  destruct (root environ eng body w) as [[r|e] w'] eqn:Hrun; cbn [fst snd].
  - destruct (root_returns _ _ _ _ _ _ Hrun) as (code & page & _ & _ & Hctx & _).
    eexists. split; [exact Hctx|]. split; [cbn; lia|]. eauto.
  - destruct (root_raises _ _ _ _ _ _ Hrun) as (rest & _ & _ & Hctx & _).
    destruct Hctx as [(Hctx & _)|[(_ & _ & c & Hctx & Hc)|(_ & _ & -> & _ & c & Hctx & Hc)]].
    + exists []. rewrite app_nil_r. split; [exact Hctx|].
      split; [cbn; lia | left; constructor].
    + exists [c]. split; [exact Hctx|]. split; [cbn; lia|].
      left. constructor; [exact Hc | constructor].
    + exists [c]. split; [exact Hctx|]. split; [cbn; lia|]. right. eauto.
Qed.

Lemma leaked_app cs tail :
  length (List.filter (fun c => negb (ctx_closed c)) (cs ++ tail)) =
  (length (List.filter (fun c => negb (ctx_closed c)) cs)
   + length (List.filter (fun c => negb (ctx_closed c)) tail))%nat.
Proof. now rewrite List.filter_app, length_app. Qed.

(** X7.  Handling requests one after another only ever appends
    contexts: every context that exists is left exactly as it is by all
    later requests, each request adds at most one, and the number of
    contexts left open never goes down.  A context that a failed request
    left open is therefore never closed by a later request. *)
Theorem serve_keeps_earlier_contexts environ requests w :
  contexts w `prefix_of` contexts (serve environ requests w) /\
  (opened (serve environ requests w) <= opened w + length requests)%nat /\
  (leaked w <= leaked (serve environ requests w))%nat.
Proof.
  revert w. induction requests as [|[eng body] requests IH]; intros w.
  - cbn. split; [reflexivity | split; lia].
  - cbn [serve length].
    destruct (root_contexts_grow environ eng body w) as (tail & Hctx & Hlen & _).
    destruct (IH (root environ eng body w).2) as (Hpre & Hopen & Hleak).
    split; [|split].
    + etransitivity; [|exact Hpre]. rewrite Hctx. now apply prefix_app_r.
    + unfold opened in *. rewrite Hctx, length_app in Hopen. lia.
    + unfold leaked in *. rewrite Hctx, leaked_app in Hleak. lia.
Qed.

(** ** Screenshot files *)

(** X8.  The screenshot file is named after the temporary directory and
    the time alone.  When two requests with a screenshot return one
    after the other, a second request that reads the same time writes
    over the file of the first, so one file holding the second image is
    left; with different times both files are left, each holding its own
    image. *)
Theorem same_time_screenshots_share_a_file environ eng1 body1 eng2 body2 w r1 w1 r2 w2 :
  screenshot body1 || screenshot_full_page body1 = true ->
  screenshot body2 || screenshot_full_page body2 = true ->
  root environ eng1 body1 w = (Return r1, w1) ->
  root environ eng2 body2 w1 = (Return r2, w2) ->
  exists image1 image2,
    eng_screenshot eng1 (screenshot_full_page body1) = inr image1 /\
    eng_screenshot eng2 (screenshot_full_page body2) = inr image2 /\
    (tmp_file_of eng1 = tmp_file_of eng2 ->
     files w2 = <[tmp_file_of eng2 := image2]> (files w)) /\
    (tmp_file_of eng1 <> tmp_file_of eng2 ->
     files w2 !! tmp_file_of eng1 = Some image1 /\
     files w2 !! tmp_file_of eng2 = Some image2).
Proof.
  intros Hs1 Hs2 Hrun1 Hrun2.
  destruct (root_returns _ _ _ _ _ _ Hrun1) as (c1 & p1 & _ & _ & _ & _ & _ & H1).
  destruct (root_returns _ _ _ _ _ _ Hrun2) as (c2 & p2 & _ & _ & _ & _ & _ & H2).
  rewrite Hs1 in H1. rewrite Hs2 in H2.
  destruct H1 as (image1 & Hi1 & Hf1 & _). destruct H2 as (image2 & Hi2 & Hf2 & _).
  exists image1, image2. split; [exact Hi1|]. split; [exact Hi2|].
  rewrite Hf2, Hf1. split.
  - intros ->. apply insert_insert_eq.
  - intros Hne. split.
    + rewrite lookup_insert_ne by congruence. apply lookup_insert_eq.
    + apply lookup_insert_eq.
Qed.

Lemma same_time_screenshots_share_a_file_witness :
  exists image1 image2,
    eng_screenshot (eng_ok 200) (screenshot_full_page body_shot) = inr image1 /\
    eng_screenshot (eng_ok 404) (screenshot_full_page body_shot) = inr image2 /\
    (tmp_file_of (eng_ok 200) = tmp_file_of (eng_ok 404) ->
     files (root ∅ (eng_ok 404) body_shot (root ∅ (eng_ok 200) body_shot world0).2).2 =
       <[tmp_file_of (eng_ok 404) := image2]> (files world0)) /\
    (tmp_file_of (eng_ok 200) <> tmp_file_of (eng_ok 404) ->
     files (root ∅ (eng_ok 404) body_shot (root ∅ (eng_ok 200) body_shot world0).2).2
       !! tmp_file_of (eng_ok 200) = Some image1 /\
     files (root ∅ (eng_ok 404) body_shot (root ∅ (eng_ok 200) body_shot world0).2).2
       !! tmp_file_of (eng_ok 404) = Some image2).
Proof.
  apply (same_time_screenshots_share_a_file ∅ (eng_ok 200) body_shot (eng_ok 404) body_shot
           world0
           (payload 200 "<html>ok</html>"
              (Some (Base64.b64encode [x89; x50; x4e; x47; x0d; x0a; x1a; x0a])))
           (root ∅ (eng_ok 200) body_shot world0).2
           (payload 404 "<html>ok</html>"
              (Some (Base64.b64encode [x89; x50; x4e; x47; x0d; x0a; x1a; x0a])))
           (root ∅ (eng_ok 404) body_shot (root ∅ (eng_ok 200) body_shot world0).2).2);
    vm_compute; reflexivity.
Defined.

(** ** Results *)

Lemma settle_time_max body t0 :
  settle_time body t0 = t0 + Z.max 0 (wait_after_load body).
Proof.
  unfold settle_time. destruct (Z.ltb_spec 0 (wait_after_load body)); lia.
Qed.

(** X9.  The content of a result is the document as the page holds it
    when the wait is over: it is read at the time of the load plus
    max(0, wait_after_load), which is also the time at which the request
    ends. *)
Theorem content_read_after_wait environ eng body w r w' :
  root environ eng body w = (Return r, w') ->
  exists page,
    eng_content eng (clock w + Z.max 0 (wait_after_load body)) = inr page /\
    dict_get "content" r = Some (JStr page) /\
    clock w' = clock w + Z.max 0 (wait_after_load body).
Proof.
  intros Hrun.
  destruct (root_returns _ _ _ _ _ _ Hrun)
    as (code & page & _ & Hpage & _ & _ & Hclock & Hshot).
  rewrite settle_time_max in Hpage, Hclock.
  exists page. split; [exact Hpage|]. split; [|exact Hclock].
  destruct (screenshot body || screenshot_full_page body).
  - destruct Hshot as (image & _ & _ & ->). reflexivity.
  - destruct Hshot as (_ & ->). reflexivity.
Qed.

Lemma content_read_after_wait_witness :
  exists page,
    eng_content (eng_ok 200)
      (clock world0 + Z.max 0 (wait_after_load (with_wait body0 500))) = inr page /\
    dict_get "content" (payload 200 "<html>ok</html>" None) = Some (JStr page) /\
    clock (root ∅ (eng_ok 200) (with_wait body0 500) world0).2 =
      clock world0 + Z.max 0 (wait_after_load (with_wait body0 500)).
Proof.
  apply (content_read_after_wait ∅ (eng_ok 200) (with_wait body0 500) world0
           (payload 200 "<html>ok</html>" None)
           (root ∅ (eng_ok 200) (with_wait body0 500) world0).2).
  vm_compute. reflexivity.
Defined.

(** X11.  A result holds the keys content, pageStatusCode and pageError,
    in this order and whatever the status is, followed by screenshot
    exactly when a screenshot text is returned; no key occurs twice, and
    pageStatusCode is the integer status of the navigation's response. *)
Theorem result_keys environ eng body w r w' :
  root environ eng body w = (Return r, w') ->
  NoDup (map fst r) /\
  (map fst r = ["content"; "pageStatusCode"; "pageError"] /\
   dict_get "screenshot" r = None \/
   map fst r = ["content"; "pageStatusCode"; "pageError"; "screenshot"] /\
   exists text, dict_get "screenshot" r = Some (JStr text) /\ text <> "") /\
  exists response,
    eng_goto eng (url body) (timeout body) = inr (Some response) /\
    dict_get "pageStatusCode" r = Some (JInt (status response)).
Proof.
  intros Hrun.
  destruct (root_returns_payload _ _ _ _ _ _ Hrun) as (code & page & shot & Hgoto & ->).
  split; [|split].
  - unfold payload. destruct (Py.truthy_str shot); cbn;
      repeat (constructor; [rewrite ?list_elem_of_In; cbn; intuition discriminate|]);
      constructor.
  - unfold payload. destruct shot as [text|]; cbn; [|left; split; reflexivity].
    destruct (String.eqb_spec text "") as [->|Hne]; cbn.
    + left. split; reflexivity.
    + right. split; [reflexivity|]. exists text. split; [reflexivity | exact Hne].
  - exists (mkResponse code). split; [exact Hgoto | reflexivity].
Qed.

Lemma result_keys_witness :
  NoDup (map fst (payload 404 "<html>ok</html>" None)) /\
  (map fst (payload 404 "<html>ok</html>" None) =
     ["content"; "pageStatusCode"; "pageError"] /\
   dict_get "screenshot" (payload 404 "<html>ok</html>" None) = None \/
   map fst (payload 404 "<html>ok</html>" None) =
     ["content"; "pageStatusCode"; "pageError"; "screenshot"] /\
   exists text,
     dict_get "screenshot" (payload 404 "<html>ok</html>" None) = Some (JStr text) /\
     text <> "") /\
  exists response,
    eng_goto (eng_ok 404) (url body0) (timeout body0) = inr (Some response) /\
    dict_get "pageStatusCode" (payload 404 "<html>ok</html>" None) =
      Some (JInt (status response)).
Proof.
  apply (result_keys ∅ (eng_ok 404) body0 world0 (payload 404 "<html>ok</html>" None)
           (root ∅ (eng_ok 404) body0 world0).2).
  vm_compute. reflexivity.
Defined.

(** ** Requests that leave fields out *)

(** X10.  A request that gives only the URL runs with the defaults of
    the model: the navigation waits for the load event for at most 15000
    ms, no headers are set, nothing is waited for and no screenshot is
    taken.  Its calls are an initial segment of: context creation, the
    media route if blocking is on, page creation, navigation, content,
    close, all at the same time; and when it returns, the result has no
    screenshot, the clock has not moved and the disk is as it was. *)
Theorem bare_request_defaults environ eng u w :
  let body := UrlModel_of u None None None None None in
  let run := root environ eng body w in
  new_calls w run.2 `prefix_of`
    ([(clock w, CNewContext (proxy_choice environ))]
     ++ (if BLOCK_MEDIA environ then [(clock w, CRoute MEDIA_GLOB)] else [])
     ++ [(clock w, CNewPage); (clock w, CGoto u "load" 15000);
         (clock w, CContent); (clock w, CClose)]) /\
  match run.1 with
  | Return r =>
      dict_get "screenshot" r = None /\
      clock run.2 = clock w /\ files run.2 = files w
  | Raise _ => True
  end.
Proof.
  cbv zeta. split.
  - destruct (root_new_calls environ eng (UrlModel_of u None None None None None) w)
      as (new & -> & Hpre & _).
    exact Hpre.
  - destruct (root environ eng (UrlModel_of u None None None None None) w)
      as [[r|e] w'] eqn:Hrun; cbn [fst snd]; [|exact I].
    destruct (root_returns _ _ _ _ _ _ Hrun) as (code & page & _ & _ & _ & _ & Hclock & Hshot).
    cbn in Hshot. destruct Hshot as (-> & ->).
    split; [reflexivity|]. split; [exact Hclock | reflexivity].
Qed.

(** ** Requests that behave alike *)

(** X14.  An empty header mapping is handled as no mapping at all: no
    call to set headers is made, and the whole run is the same. *)
Theorem empty_headers_as_none environ eng body w :
  root environ eng (with_headers body (Some [])) w =
  root environ eng (with_headers body None) w /\
  existsb (fun c => is_set_headers c.2)
          (new_calls w (root environ eng (with_headers body (Some [])) w).2) = false.
Proof.
  split; [reflexivity|].
  destruct (root_new_calls environ eng (with_headers body (Some [])) w)
    as (new & -> & [k Hk] & _).
  unfold calls_of_success in Hk.
  cbn [headers with_headers Py.truthy_dict wait_after_load screenshot
       screenshot_full_page] in Hk.
  destruct (existsb (fun c => is_set_headers c.2) new) eqn:Hex; [|reflexivity].
  exfalso. assert (Hfull : existsb (fun c => is_set_headers c.2) (new ++ k) = true)
    by (rewrite existsb_app, Hex; reflexivity).
  rewrite <- Hk in Hfull.
  destruct (BLOCK_MEDIA environ), (0 <? wait_after_load body),
    (screenshot body || screenshot_full_page body); cbn in Hfull; discriminate.
Qed.

(** X15.  Once screenshot_full_page is set the screenshot flag changes
    nothing: the run is the same with the flag on or off, and the image
    is taken of the full page. *)
Theorem full_page_makes_screenshot_flag_moot environ eng body shot w :
  root environ eng (with_screenshot body shot true) w =
  root environ eng (with_screenshot body true true) w /\
  forall r w',
    root environ eng (with_screenshot body shot true) w = (Return r, w') ->
    exists image,
      eng_screenshot eng true = inr image /\
      files w' !! tmp_file_of eng = Some image.
Proof.
  split.
  - unfold root, with_screenshot.
    cbn [url wait_after_load timeout headers screenshot screenshot_full_page].
    rewrite !orb_true_r. reflexivity.
  - intros r w' Hrun.
    destruct (root_returns _ _ _ _ _ _ Hrun) as (code & page & _ & _ & _ & _ & _ & Hshot).
    cbn [screenshot screenshot_full_page with_screenshot] in Hshot.
    rewrite orb_true_r in Hshot. destruct Hshot as (image & Himg & -> & _).
    exists image. split; [exact Himg | apply lookup_insert_eq].
Qed.

(** ** Base64 *)

Section Base64Facts.

Local Open Scope N_scope.

Lemma testbit_above (y : N) n k : y < 2 ^ k -> k <= n -> N.testbit y n = false.
Proof.
  intros Hy Hk.
  assert (Hn : y < 2 ^ n).
  { eapply N.lt_le_trans; [exact Hy|]. apply N.pow_le_mono_r; lia. }
  pose proof (N.testbit_spec' y n) as H.
  rewrite (N.div_small _ _ Hn) in H. destruct (N.testbit y n); [discriminate | reflexivity].
Qed.

Lemma lor_mul_pow2 q y k : y < 2 ^ k -> N.lor (q * 2 ^ k) y = q * 2 ^ k + y.
Proof.
  intros Hy. rewrite <- N.shiftl_mul_pow2.
  assert (Hdisj : N.land (N.shiftl q k) y = 0).
  { apply N.bits_inj. intros n. rewrite N.land_spec, N.bits_0.
    destruct (N.lt_ge_cases n k) as [Hlt|Hge].
    - now rewrite N.shiftl_spec_low.
    - rewrite (testbit_above y n k Hy Hge). apply andb_false_r. }
  now rewrite <- N.lxor_lor, <- N.add_nocarry_lxor by exact Hdisj.
Qed.

(** The 24-bit word of a group of three bytes. *)
Lemma word_of_bytes a b c :
  b < 256 -> c < 256 ->
  N.lor (N.lor (N.shiftl a 16) (N.shiftl b 8)) c = (a * 256 + b) * 256 + c.
Proof.
  intros Hb Hc. rewrite !N.shiftl_mul_pow2.
  rewrite (lor_mul_pow2 a (b * 2 ^ 8) 16) by (change (2 ^ 8) with 256; change (2 ^ 16) with 65536; lia).
  replace (a * 2 ^ 16 + b * 2 ^ 8) with ((a * 256 + b) * 2 ^ 8)
    by (change (2 ^ 8) with 256; change (2 ^ 16) with 65536; lia).
  rewrite lor_mul_pow2 by exact Hc. reflexivity.
Qed.

Lemma word_of_sextets s1 s2 s3 s4 :
  s2 < 64 -> s3 < 64 -> s4 < 64 ->
  word_of s1 s2 s3 s4 = ((s1 * 64 + s2) * 64 + s3) * 64 + s4.
Proof.
  intros H2 H3 H4. unfold word_of. rewrite !N.shiftl_mul_pow2.
  rewrite (lor_mul_pow2 s1 (s2 * 2 ^ 12) 18)
    by (change (2 ^ 12) with 4096; change (2 ^ 18) with 262144; lia).
  replace (s1 * 2 ^ 18 + s2 * 2 ^ 12) with ((s1 * 64 + s2) * 2 ^ 12)
    by (change (2 ^ 12) with 4096; change (2 ^ 18) with 262144; lia).
  rewrite (lor_mul_pow2 _ (s3 * 2 ^ 6) 12)
    by (change (2 ^ 6) with 64; change (2 ^ 12) with 4096; lia).
  replace ((s1 * 64 + s2) * 2 ^ 12 + s3 * 2 ^ 6) with (((s1 * 64 + s2) * 64 + s3) * 2 ^ 6)
    by (change (2 ^ 6) with 64; change (2 ^ 12) with 4096; lia).
  rewrite lor_mul_pow2 by exact H4. reflexivity.
Qed.

Lemma chunk64 x : x / 64 * 64 + x mod 64 = x.
Proof. rewrite N.mul_comm. symmetry. apply N.div_mod. discriminate. Qed.

(** Cutting a word into sextets and putting them together again. *)
Lemma sextets_of_word w :
  word_of (N.shiftr w 18) (N.land (N.shiftr w 12) 63) (N.land (N.shiftr w 6) 63)
          (N.land w 63) = w.
Proof.
  change 63 with (N.ones 6). rewrite !N.land_ones, !N.shiftr_div_pow2.
  change (2 ^ 6) with 64. change (2 ^ 12) with (64 * 64). change (2 ^ 18) with (64 * 64 * 64).
  rewrite word_of_sextets by (apply N.mod_lt; discriminate).
  rewrite <- !N.Div0.div_div.
  rewrite (chunk64 (w / 64 / 64)), (chunk64 (w / 64)). apply chunk64.
Qed.

Lemma bytes_of_word a b c :
  b < 256 -> c < 256 ->
  let w := (a * 256 + b) * 256 + c in
  N.shiftr w 16 = a /\ N.land (N.shiftr w 8) 255 = b /\ N.land w 255 = c.
Proof.
  intros Hb Hc w. change 255 with (N.ones 8).
  rewrite !N.land_ones, !N.shiftr_div_pow2.
  change (2 ^ 8) with 256. change (2 ^ 16) with (256 * 256).
  rewrite <- N.Div0.div_div.
  assert (H1 : w / 256 = a * 256 + b).
  { unfold w. rewrite N.div_add_l by discriminate. rewrite (N.div_small c) by exact Hc. lia. }
  assert (H2 : w mod 256 = c).
  { unfold w. rewrite N.add_comm, N.Div0.mod_add. now apply N.mod_small. }
  rewrite H1, H2. split; [|split; [|reflexivity]].
  - rewrite N.div_add_l by discriminate. rewrite (N.div_small b) by exact Hb. lia.
  - rewrite N.add_comm, N.Div0.mod_add. now apply N.mod_small.
Qed.

Lemma unsextet_sextet n :
  n < 64 ->
  unsextet (Base64.sextet n) = Some n /\ Ascii.eqb (Base64.sextet n) "=" = false.
Proof.
  intros Hn.
  assert (Hnat : (N.to_nat n < 64)%nat) by lia.
  rewrite <- (N2Nat.id n). clear Hn. revert Hnat.
  generalize (N.to_nat n). intros m Hm.
  do 64 (destruct m as [|m]; [split; reflexivity|]). lia.
Qed.

Lemma sextet_bounds w :
  w < 16777216 ->
  N.shiftr w 18 < 64 /\ N.land (N.shiftr w 12) 63 < 64 /\
  N.land (N.shiftr w 6) 63 < 64 /\ N.land w 63 < 64.
Proof.
  intros Hw. change 63 with (N.ones 6). rewrite !N.land_ones, !N.shiftr_div_pow2.
  change (2 ^ 6) with 64. change (2 ^ 18) with 262144.
  split; [apply N.Div0.div_lt_upper_bound; lia|].
  repeat split; apply N.mod_lt; discriminate.
Qed.

Lemma decode_group c1 c2 c3 c4 rest s1 s2 s3 s4 :
  unsextet c1 = Some s1 -> unsextet c2 = Some s2 ->
  unsextet c3 = Some s3 -> unsextet c4 = Some s4 ->
  Ascii.eqb c4 "=" = false ->
  decode_text (String c1 (String c2 (String c3 (String c4 rest)))) =
  (bs ← decode_text rest;
   Some (N.shiftr (word_of s1 s2 s3 s4) 16
         :: N.land (N.shiftr (word_of s1 s2 s3 s4) 8) 255
         :: N.land (word_of s1 s2 s3 s4) 255 :: bs)).
Proof.
  intros H1 H2 H3 H4 H. cbn [decode_text]. rewrite H1, H2, H3, H4, H. reflexivity.
Qed.

Lemma decode_pad1 c1 c2 c3 s1 s2 s3 :
  unsextet c1 = Some s1 -> unsextet c2 = Some s2 -> unsextet c3 = Some s3 ->
  Ascii.eqb c3 "=" = false ->
  decode_text (String c1 (String c2 (String c3 "="))) =
  Some [N.shiftr (word_of s1 s2 s3 0) 16;
        N.land (N.shiftr (word_of s1 s2 s3 0) 8) 255].
Proof.
  intros H1 H2 H3 H. cbn [decode_text]. rewrite H1, H2, H3. cbn. rewrite H. reflexivity.
Qed.

Lemma decode_pad2 c1 c2 s1 s2 :
  unsextet c1 = Some s1 -> unsextet c2 = Some s2 ->
  decode_text (String c1 (String c2 "==")) = Some [N.shiftr (word_of s1 s2 0 0) 16].
Proof.
  intros H1 H2. cbn [decode_text]. rewrite H1, H2. reflexivity.
Qed.

Lemma list_ind3 {A} (P : list A -> Prop) :
  P [] -> (forall a, P [a]) -> (forall a b, P [a; b]) ->
  (forall a b c l, P l -> P (a :: b :: c :: l)) ->
  forall l, P l.
Proof.
  intros H0 H1 H2 H3.
  assert (H : forall l, P l /\ (forall a, P (a :: l)) /\ (forall a b, P (a :: b :: l))).
  { induction l as [|x l (IH0 & IH1 & IH2)]; [auto|].
    split; [apply IH1|]. split; [intros a; apply IH2|].
    intros a b. apply H3. exact IH0. }
  intros l. apply H.
Qed.

Lemma land_63_of_multiple q : N.land (q * 64) 63 = 0.
Proof.
  change 63 with (N.ones 6). rewrite N.land_ones. change (2 ^ 6) with 64.
  apply N.Div0.mod_mul.
Qed.

Lemma decode_encode bs :
  Forall (fun b => b < 256) bs -> decode_text (Base64.encode bs) = Some bs.
Proof.
  induction bs as [|a|a b|a b c l IH] using list_ind3; intros Hbs.
  - reflexivity.
  - set (w := N.shiftl a 16).
    assert (Hw : w = a * 1024 * 64) by (unfold w; rewrite N.shiftl_mul_pow2; change (2 ^ 16) with 65536; lia).
    assert (Hlt : w < 16777216).
    { apply Forall_cons in Hbs as [Ha _]. lia. }
    destruct (sextet_bounds w Hlt) as (B1 & B2 & _ & _).
    destruct (unsextet_sextet _ B1) as [U1 _]. destruct (unsextet_sextet _ B2) as [U2 _].
    change (Base64.encode [a]) with
      (String (Base64.sextet (N.shiftr w 18))
         (String (Base64.sextet (N.land (N.shiftr w 12) 63)) "==")).
    rewrite (decode_pad2 _ _ _ _ U1 U2).
    pose proof (sextets_of_word w) as Hs.
    assert (H4 : N.land w 63 = 0) by (rewrite Hw; apply land_63_of_multiple).
    assert (H3 : N.land (N.shiftr w 6) 63 = 0).
    { rewrite N.shiftr_div_pow2. change (2 ^ 6) with 64. rewrite Hw, N.div_mul by discriminate.
      replace (a * 1024) with (a * 16 * 64) by lia. apply land_63_of_multiple. }
    rewrite H3, H4 in Hs. rewrite Hs.
    unfold w. rewrite N.shiftr_div_pow2, N.shiftl_mul_pow2, N.div_mul by discriminate.
    reflexivity.
  - apply Forall_cons in Hbs as [Ha Hbs]. apply Forall_cons in Hbs as [Hb _].
    set (w := N.lor (N.shiftl a 16) (N.shiftl b 8)).
    assert (Hw : w = (a * 256 + b) * 256 + 0).
    { unfold w. rewrite <- (word_of_bytes a b 0) by lia. now rewrite N.lor_0_r. }
    assert (Hlt : w < 16777216) by lia.
    destruct (sextet_bounds w Hlt) as (B1 & B2 & B3 & _).
    destruct (unsextet_sextet _ B1) as [U1 _]. destruct (unsextet_sextet _ B2) as [U2 _].
    destruct (unsextet_sextet _ B3) as [U3 E3].
    change (Base64.encode [a; b]) with
      (String (Base64.sextet (N.shiftr w 18))
         (String (Base64.sextet (N.land (N.shiftr w 12) 63))
            (String (Base64.sextet (N.land (N.shiftr w 6) 63)) "="))).
    rewrite (decode_pad1 _ _ _ _ _ _ U1 U2 U3 E3).
    pose proof (sextets_of_word w) as Hs.
    assert (H4 : N.land w 63 = 0).
    { rewrite Hw. replace ((a * 256 + b) * 256 + 0) with ((a * 256 + b) * 4 * 64) by lia.
      apply land_63_of_multiple. }
    rewrite H4 in Hs. rewrite Hs, Hw.
    destruct (bytes_of_word a b 0 Hb) as (-> & -> & _); [lia|]. reflexivity.
  - apply Forall_cons in Hbs as [Ha Hbs]. apply Forall_cons in Hbs as [Hb Hbs].
    apply Forall_cons in Hbs as [Hc Hl].
    set (w := N.lor (N.lor (N.shiftl a 16) (N.shiftl b 8)) c).
    assert (Hw : w = (a * 256 + b) * 256 + c) by (apply word_of_bytes; assumption).
    assert (Hlt : w < 16777216) by lia.
    destruct (sextet_bounds w Hlt) as (B1 & B2 & B3 & B4).
    destruct (unsextet_sextet _ B1) as [U1 _]. destruct (unsextet_sextet _ B2) as [U2 _].
    destruct (unsextet_sextet _ B3) as [U3 _]. destruct (unsextet_sextet _ B4) as [U4 E4].
    change (Base64.encode (a :: b :: c :: l)) with
      (String (Base64.sextet (N.shiftr w 18))
         (String (Base64.sextet (N.land (N.shiftr w 12) 63))
            (String (Base64.sextet (N.land (N.shiftr w 6) 63))
               (String (Base64.sextet (N.land w 63)) (Base64.encode l))))).
    rewrite (decode_group _ _ _ _ _ _ _ _ _ U1 U2 U3 U4 E4), (IH Hl).
    rewrite sextets_of_word, Hw.
    destruct (bytes_of_word a b c Hb Hc) as (-> & -> & ->). reflexivity.
Qed.

Lemma mapM_of_to_N data : mapM Byte.of_N (map Byte.to_N data) = Some data.
Proof.
  apply mapM_Some. induction data as [|b data IH]; cbn; constructor.
  - apply Byte.of_to_N.
  - exact IH.
Qed.

Lemma b64decode_b64encode data : b64decode (Base64.b64encode data) = Some data.
Proof.
  unfold b64decode, Base64.b64encode. rewrite decode_encode.
  - cbn. apply mapM_of_to_N.
  - apply Forall_forall. intros n Hn. apply list_elem_of_fmap in Hn as (b & -> & _).
    pose proof (Byte.to_N_bounded b). lia.
Qed.

Lemma encode_length bs :
  String.length (Base64.encode bs) = (4 * ((length bs + 2) / 3))%nat.
Proof.
  induction bs as [|a|a b|a b c l IH] using list_ind3; try reflexivity.
  change (Base64.encode (a :: b :: c :: l)) with
    (String (Base64.sextet (N.shiftr (N.lor (N.lor (N.shiftl a 16) (N.shiftl b 8)) c) 18))
       (String (Base64.sextet (N.land (N.shiftr (N.lor (N.lor (N.shiftl a 16) (N.shiftl b 8)) c) 12) 63))
          (String (Base64.sextet (N.land (N.shiftr (N.lor (N.lor (N.shiftl a 16) (N.shiftl b 8)) c) 6) 63))
             (String (Base64.sextet (N.land (N.lor (N.lor (N.shiftl a 16) (N.shiftl b 8)) c) 63))
                (Base64.encode l))))).
  cbn [String.length length]. rewrite IH.
  replace (S (S (S (length l))) + 2)%nat with (1 * 3 + (length l + 2))%nat by lia.
  rewrite Nat.div_add_l by discriminate. lia.
Qed.

End Base64Facts.

(** X13.  [b64encode] loses nothing: its text reads back to the bytes it
    was made from, so different byte strings never share a text, and the
    text has four characters for every three bytes, the last group
    padded. *)
Theorem b64encode_faithful data :
  b64decode (Base64.b64encode data) = Some data /\
  (forall other, Base64.b64encode other = Base64.b64encode data -> other = data) /\
  String.length (Base64.b64encode data) = (4 * ((length data + 2) / 3))%nat.
Proof.
  split; [apply b64decode_b64encode|]. split.
  - intros other Heq.
    pose proof (b64decode_b64encode other) as Ho. rewrite Heq, b64decode_b64encode in Ho.
    congruence.
  - unfold Base64.b64encode. rewrite encode_length, length_map. reflexivity.
Qed.

(** X12.  Whenever a result carries a screenshot, its text decodes to
    exactly the image the engine captured for the request's
    screenshot_full_page, which is also the content of the screenshot
    file. *)
Theorem screenshot_text_decodes_to_image environ eng body w r w' text :
  root environ eng body w = (Return r, w') ->
  dict_get "screenshot" r = Some (JStr text) ->
  exists image,
    eng_screenshot eng (screenshot_full_page body) = inr image /\
    files w' !! tmp_file_of eng = Some image /\
    b64decode text = Some image.
Proof.
  intros Hrun Htext.
  destruct (root_returns _ _ _ _ _ _ Hrun) as (code & page & _ & _ & _ & _ & _ & Hshot).
  destruct (screenshot body || screenshot_full_page body).
  - destruct Hshot as (image & Himg & -> & ->).
    rewrite dict_get_payload_screenshot in Htext.
    destruct (Py.truthy_str (Some (Base64.b64encode image))); [|discriminate].
    injection Htext as <-.
    exists image. split; [exact Himg|]. split; [apply lookup_insert_eq|].
    apply b64decode_b64encode.
  - destruct Hshot as (_ & ->). discriminate.
Qed.

Lemma screenshot_text_decodes_to_image_witness :
  exists image,
    eng_screenshot (eng_ok 200) (screenshot_full_page body_shot) = inr image /\
    files (root ∅ (eng_ok 200) body_shot world0).2 !! tmp_file_of (eng_ok 200) = Some image /\
    b64decode "iVBORw0KGgo=" = Some image.
Proof.
  apply (screenshot_text_decodes_to_image ∅ (eng_ok 200) body_shot world0
           (payload 200 "<html>ok</html>" (Some "iVBORw0KGgo="))
           (root ∅ (eng_ok 200) body_shot world0).2 "iVBORw0KGgo=");
    vm_compute; reflexivity.
Defined.

(** X16.  A request that returns leaves one new context behind, at the
    end of the list: created with the proxy the configuration selects,
    holding the media route if blocking is on and no other, with exactly
    one page, and closed. *)
Theorem request_context_shape environ eng body w r w' :
  root environ eng body w = (Return r, w') ->
  contexts w' = contexts w ++ [mkContext (proxy_choice environ) (media_routes environ) 1 true] /\
  (length (media_routes environ) <= 1)%nat /\
  Forall (fun rt => route_glob rt = MEDIA_GLOB /\ forall u, route_handler rt u = abort)
         (media_routes environ).
Proof.
  intros Hrun.
  destruct (root_returns _ _ _ _ _ _ Hrun) as (code & page & _ & _ & Hctx & _).
  split; [exact Hctx|]. unfold media_routes.
  destruct (BLOCK_MEDIA environ); cbn; split; try lia; repeat constructor.
Qed.

Lemma request_context_shape_witness :
  contexts (root ∅ (eng_ok 200) body0 world0).2 =
    contexts world0 ++ [mkContext (proxy_choice ∅) (media_routes ∅) 1 true] /\
  (length (media_routes ∅) <= 1)%nat /\
  Forall (fun rt => route_glob rt = MEDIA_GLOB /\ forall u, route_handler rt u = abort)
         (media_routes ∅).
Proof.
  apply (request_context_shape ∅ (eng_ok 200) body0 world0
           (payload 200 "<html>ok</html>" None)).
  vm_compute. reflexivity.
Defined.
